(** * Student Emotion Recorder (ESP32 sketch): input decoding and interaction
      state machine.

    Shallow embedding of [Mental_Health_Recoder.ino]: the quadrature decoder
    [updateEncoder] (an interrupt service routine), the debounced button
    reader [isButtonPressed], the two display routines [displayMenu] and
    [updateOLED], and the main [loop] with its submission block and
    confirmation dwell.

    Conventions.
    - [int] is a 32-bit two's complement integer, kept as a [Z] and wrapped
      with [wrap32] after every addition; [unsigned long] is a 32-bit
      unsigned integer, wrapped with [wrap_u32].
    - [%] on [int] is C's truncating remainder, [Z.rem].
    - The environment (pin levels, [millis()] readings, the date string) is
      an explicit input of every tick.
    - Output to the LCD, the OLED and the Telegram sink is an explicit list
      of events.
    - An array read outside the array and a loop that is still running when
      the supplied clock readings end are explicit outcomes, [Undefined] and
      [Hang]. *)

From Stdlib Require Import ZArith List String Ascii Bool Lia DecimalString.
Import ListNotations.
Local Open Scope string_scope.
Local Open Scope Z_scope.

(** ** Machine integers *)

Definition wrap_u32 (z : Z) : Z := z mod 2 ^ 32.

Definition wrap32 (z : Z) : Z := (z + 2 ^ 31) mod 2 ^ 32 - 2 ^ 31.

Definition INT_MIN : Z := - 2 ^ 31.
Definition INT_MAX : Z := 2 ^ 31 - 1.

(** ** Outcomes of a computation *)

Inductive result (A : Type) : Type :=
| Ok (a : A)
| Hang
| Undefined.

Arguments Ok {A} a.
Arguments Hang {A}.
Arguments Undefined {A}.

Definition bind {A B : Type} (r : result A) (k : A -> result B) : result B :=
  match r with
  | Ok a => k a
  | Hang => Hang
  | Undefined => Undefined
  end.

Notation "x <- e ;; k" := (bind e (fun x => k))
  (at level 61, e at next level, right associativity).

(** ** State machine, menu data and global variables *)

Inductive DeviceState : Type :=
| STATE_NAME_SELECTION
| STATE_CLASS_SELECTION
| STATE_MOOD_SELECTION
| STATE_SUBMISSION
| STATE_CONFIRMATION.

Definition DeviceState_eqb (a b : DeviceState) : bool :=
  match a, b with
  | STATE_NAME_SELECTION, STATE_NAME_SELECTION
  | STATE_CLASS_SELECTION, STATE_CLASS_SELECTION
  | STATE_MOOD_SELECTION, STATE_MOOD_SELECTION
  | STATE_SUBMISSION, STATE_SUBMISSION
  | STATE_CONFIRMATION, STATE_CONFIRMATION => true
  | _, _ => false
  end.

(** The three selecting phases. *)
Definition selecting (d : DeviceState) : bool :=
  match d with
  | STATE_NAME_SELECTION | STATE_CLASS_SELECTION | STATE_MOOD_SELECTION => true
  | _ => false
  end.

(** The four constant arrays of the sketch. [numNames], [numClasses] and
    [numMoods] are [sizeof(a) / sizeof(a[0])], the array lengths. An array
    with an initialiser has at least one element. *)
Record MenuData : Type := {
  names : list string;
  classes : list string;
  moods : list string;
  moodMessages : list string
}.

Definition numNames (md : MenuData) : Z := Z.of_nat (List.length (names md)).
Definition numClasses (md : MenuData) : Z := Z.of_nat (List.length (classes md)).
Definition numMoods (md : MenuData) : Z := Z.of_nat (List.length (moods md)).

(** The arrays as the sketch declares them. *)
Definition sketch : MenuData := {|
  names := ["Tan Jetyu"; "Nur Qalisha"; "Shum Jia Xiang"; "Evelyn"];
  classes := ["Class 3"; "Class 4"; "Class 5"];
  moods := ["Happy"; "Neutral"; "Sad"; "Angry"; "Excited"];
  moodMessages :=
    ["yes! Please stay happy !";
     "awh Why ? Try to find something you like to do today !";
     "Well, Its okay to be sad. Try to reach out to people you trust.";
     "Okay! Cool cool! Take a deep breath!";
     "Wow! I'm glad! Try to share your happiness with your friends!"]
|}.

(** [a[i]] on a constant array: defined only inside the array. *)
Definition index (a : list string) (i : Z) : result string :=
  if i <? 0 then Undefined
  else match nth_error a (Z.to_nat i) with
       | Some x => Ok x
       | None => Undefined
       end.

(** The global variables. [prevState] is [None] for the sentinel
    [(DeviceState)-1], which equals no enumerator. *)
Record State : Type := mkState {
  currentState : DeviceState;
  selectedNameIndex : Z;
  selectedClassIndex : Z;
  selectedMoodIndex : Z;
  encoderPos : Z;
  lastEncoded : Z;
  lastButtonPressTime : Z;
  prevState : option DeviceState;
  prevNameIndex : Z;
  prevClassIndex : Z;
  prevMoodIndex : Z
}.

(** The values of the globals at their declarations. *)
Definition initial : State := {|
  currentState := STATE_NAME_SELECTION;
  selectedNameIndex := 0;
  selectedClassIndex := 0;
  selectedMoodIndex := 0;
  encoderPos := 0;
  lastEncoded := 0;
  lastButtonPressTime := 0;
  prevState := None;
  prevNameIndex := -1;
  prevClassIndex := -1;
  prevMoodIndex := -1
|}.

Definition set_currentState (s : State) (d : DeviceState) : State :=
  mkState d (selectedNameIndex s) (selectedClassIndex s) (selectedMoodIndex s)
    (encoderPos s) (lastEncoded s) (lastButtonPressTime s)
    (prevState s) (prevNameIndex s) (prevClassIndex s) (prevMoodIndex s).

Definition set_selectedNameIndex (s : State) (v : Z) : State :=
  mkState (currentState s) v (selectedClassIndex s) (selectedMoodIndex s)
    (encoderPos s) (lastEncoded s) (lastButtonPressTime s)
    (prevState s) (prevNameIndex s) (prevClassIndex s) (prevMoodIndex s).

Definition set_selectedClassIndex (s : State) (v : Z) : State :=
  mkState (currentState s) (selectedNameIndex s) v (selectedMoodIndex s)
    (encoderPos s) (lastEncoded s) (lastButtonPressTime s)
    (prevState s) (prevNameIndex s) (prevClassIndex s) (prevMoodIndex s).

Definition set_selectedMoodIndex (s : State) (v : Z) : State :=
  mkState (currentState s) (selectedNameIndex s) (selectedClassIndex s) v
    (encoderPos s) (lastEncoded s) (lastButtonPressTime s)
    (prevState s) (prevNameIndex s) (prevClassIndex s) (prevMoodIndex s).

Definition set_encoder (s : State) (pos last : Z) : State :=
  mkState (currentState s) (selectedNameIndex s) (selectedClassIndex s)
    (selectedMoodIndex s) pos last (lastButtonPressTime s)
    (prevState s) (prevNameIndex s) (prevClassIndex s) (prevMoodIndex s).

Definition set_lastButtonPressTime (s : State) (t : Z) : State :=
  mkState (currentState s) (selectedNameIndex s) (selectedClassIndex s)
    (selectedMoodIndex s) (encoderPos s) (lastEncoded s) t
    (prevState s) (prevNameIndex s) (prevClassIndex s) (prevMoodIndex s).

(** ** Quadrature decoder: [updateEncoder], the interrupt service routine *)

(** One sample of the two encoder pins: [digitalRead] of pin A and of pin B,
    [true] for HIGH. *)
Definition Sample : Type := (bool * bool)%type.

(** [encoded = (MSB << 1) | LSB]. *)
Definition encode (ab : Sample) : Z :=
  Z.lor (Z.shiftl (Z.b2z (fst ab)) 1) (Z.b2z (snd ab)).

(** [sum = (lastEncoded << 2) | encoded]. *)
Definition transition_code (last : Z) (ab : Sample) : Z :=
  Z.lor (Z.shiftl last 2) (encode ab).

Definition updateEncoder (s : State) (ab : Sample) : State :=
  let encoded := encode ab in
  let sum := Z.lor (Z.shiftl (lastEncoded s) 2) encoded in
  if (sum =? 13) || (sum =? 4) || (sum =? 2) || (sum =? 11) then
    set_encoder s (wrap32 (encoderPos s + 1)) encoded
  else if (sum =? 14) || (sum =? 7) || (sum =? 1) || (sum =? 8) then
    set_encoder s (wrap32 (encoderPos s - 1)) encoded
  else
    set_encoder s (encoderPos s) encoded.

(** The interrupt serviced once per sample, in order. *)
Definition isr_run (s : State) (samples : list Sample) : State :=
  fold_left updateEncoder samples s.

(** ** Debounced button reader: [isButtonPressed] *)

(** [low] is [digitalRead(BUTTON_PIN) == LOW]; [now] is the value [millis()]
    returns. The subtraction is on [unsigned long]. *)
Definition isButtonPressed (s : State) (low : bool) (now : Z) : bool * State :=
  if low then
    if 200 <? wrap_u32 (now - lastButtonPressTime s) then
      (true, set_lastButtonPressTime s now)
    else (false, s)
  else (false, s).

(** ** Output events *)

(** What reaches the three sinks. [LcdMenu] is [lcd.clear()] followed by the
    two rows printed, [LcdLine] by the first row only; [LcdClear] is
    [lcd.clear()] alone (the [default] branch of [displayMenu], and the end
    of [startupAnimation]). [OledEyes], [OledEmotion], [OledMessage] and
    [OledIdle] are the four branches of [updateOLED], each of which clears
    the panel first. The last three events occur in [setup] only: [OledClear]
    is [display.clearDisplay(); display.display();], [OledWiFi] is a status
    screen of [setupWiFi] (the text "Connecting to WiFi..." for [false]; the
    lines "WiFi Connected!", "IP:" and the local address for [true]), and
    [RoboEyes] is [roboEyes.update()] on its own, the panel not cleared. *)
Inductive Event : Type :=
| LcdMenu (row0 row1 : string)
| LcdClear
| OledEyes
| OledEmotion (moodIndex : Z)
| OledMessage (msg : string)
| OledIdle
| Telegram (message : string)
| LcdLine (row0 : string)
| OledClear
| OledWiFi (connected : bool)
| RoboEyes.

Definition is_oled (e : Event) : bool :=
  match e with
  | OledEyes | OledEmotion _ | OledMessage _ | OledIdle => true
  | OledClear | OledWiFi _ | RoboEyes => true
  | _ => false
  end.

Definition is_lcd (e : Event) : bool :=
  match e with
  | LcdMenu _ _ | LcdClear => true
  | LcdLine _ => true
  | _ => false
  end.

(** ** The two display routines *)

Definition displayMenu (md : MenuData) (s : State) : result Event :=
  match currentState s with
  | STATE_NAME_SELECTION =>
      l <- index (names md) (selectedNameIndex s) ;;
      Ok (LcdMenu "Select Name:" l)
  | STATE_CLASS_SELECTION =>
      l <- index (classes md) (selectedClassIndex s) ;;
      Ok (LcdMenu "Select Class:" l)
  | STATE_MOOD_SELECTION =>
      l <- index (moods md) (selectedMoodIndex s) ;;
      Ok (LcdMenu "Select Mood:" l)
  | STATE_CONFIRMATION => Ok (LcdMenu "Submitted!" "Thank you!")
  | STATE_SUBMISSION => Ok LcdClear
  end.

Definition updateOLED (md : MenuData) (s : State) : result Event :=
  match currentState s with
  | STATE_NAME_SELECTION | STATE_CLASS_SELECTION => Ok OledEyes
  | STATE_MOOD_SELECTION => Ok (OledEmotion (selectedMoodIndex s))
  | STATE_CONFIRMATION =>
      m <- index (moodMessages md) (selectedMoodIndex s) ;;
      Ok (OledMessage m)
  | STATE_SUBMISSION => Ok OledIdle
  end.

(** ** The main loop, first half: drain, rotate, button, menu, OLED *)

(** [(current + pos + n) % n] on [int]. *)
Definition wrap_step (current pos n : Z) : Z :=
  Z.rem (wrap32 (wrap32 (current + pos) + n)) n.

(** [if (pos != 0) switch (currentState) ...]. *)
Definition rotate (md : MenuData) (s : State) (pos : Z) : State :=
  if pos =? 0 then s
  else match currentState s with
       | STATE_NAME_SELECTION =>
           set_selectedNameIndex s
             (wrap_step (selectedNameIndex s) pos (numNames md))
       | STATE_CLASS_SELECTION =>
           set_selectedClassIndex s
             (wrap_step (selectedClassIndex s) pos (numClasses md))
       | STATE_MOOD_SELECTION =>
           set_selectedMoodIndex s
             (wrap_step (selectedMoodIndex s) pos (numMoods md))
       | _ => s
       end.

(** The [switch] taken when [isButtonPressed()] returns true. *)
Definition press (s : State) : State :=
  match currentState s with
  | STATE_NAME_SELECTION => set_currentState s STATE_CLASS_SELECTION
  | STATE_CLASS_SELECTION => set_currentState s STATE_MOOD_SELECTION
  | STATE_MOOD_SELECTION => set_currentState s STATE_SUBMISSION
  | _ => s
  end.

(** The condition guarding the call of [displayMenu] in [loop]. *)
Definition menu_changed (s : State) : bool :=
  negb (match prevState s with
        | Some p => DeviceState_eqb (currentState s) p
        | None => false
        end)
  || (DeviceState_eqb (currentState s) STATE_NAME_SELECTION
      && negb (selectedNameIndex s =? prevNameIndex s))
  || (DeviceState_eqb (currentState s) STATE_CLASS_SELECTION
      && negb (selectedClassIndex s =? prevClassIndex s))
  || (DeviceState_eqb (currentState s) STATE_MOOD_SELECTION
      && negb (selectedMoodIndex s =? prevMoodIndex s)).

(** The four tracking assignments after [displayMenu]. *)
Definition snapshot (s : State) : State :=
  mkState (currentState s) (selectedNameIndex s) (selectedClassIndex s)
    (selectedMoodIndex s) (encoderPos s) (lastEncoded s)
    (lastButtonPressTime s)
    (Some (currentState s)) (selectedNameIndex s) (selectedClassIndex s)
    (selectedMoodIndex s).

(** One pass of the confirmation [while]: the encoder samples the interrupt
    services before the clock is read, the level of the button pin at that
    moment (which the loop never reads), and the value [millis()] returns in
    the loop condition. *)
Record DwellStep : Type := {
  dw_isr : list Sample;
  dw_button_low : bool;
  dw_millis : Z
}.

(** What the environment supplies to one iteration of [loop]. The interrupt
    writes [encoderPos] and [lastEncoded] only and [loop] reads [encoderPos]
    only inside the [noInterrupts()] section, so the samples serviced after
    the drain are grouped by the part of the iteration they arrive in. The
    clock values are values of [unsigned long], between 0 and [2 ^ 32 - 1]. *)
Record TickInput : Type := {
  in_isr_pre : list Sample;       (* serviced before the drain *)
  in_button_low : bool;           (* digitalRead(BUTTON_PIN) == LOW *)
  in_millis : Z;                  (* millis() inside isButtonPressed *)
  in_isr_front : list Sample;     (* serviced after the drain, before the
                                     submission block *)
  in_date : string;               (* getFormattedDate() *)
  in_isr_submit : list Sample;    (* serviced while STATE_SUBMISSION *)
  in_confirmStart : Z;            (* millis() at confirmStart *)
  in_dwell : list DwellStep       (* the passes of the confirmation while *)
}.

Definition drain (s : State) : Z * State :=
  (encoderPos s, set_encoder s 0 (lastEncoded s)).

(** The globals once the input of the iteration is taken in: the drain, the
    rotation [switch], the button poll and its [switch]. *)
Definition front_state (md : MenuData) (s : State) (i : TickInput) : State :=
  let s := isr_run s (in_isr_pre i) in
  let (pos, s) := drain s in
  let s := rotate md s pos in
  let (pressed, s) := isButtonPressed s (in_button_low i) (in_millis i) in
  let s := if pressed then press s else s in
  isr_run s (in_isr_front i).

(** The guarded [displayMenu()] with its tracking assignments, then the
    unguarded [updateOLED()]. *)
Definition render (md : MenuData) (s : State) : result (State * list Event) :=
  if menu_changed s then
    e <- displayMenu md s ;;
    o <- updateOLED md (snapshot s) ;;
    Ok (snapshot s, [e; o])
  else
    o <- updateOLED md s ;;
    Ok (s, [o]).

Definition loop_front (md : MenuData) (s : State) (i : TickInput)
  : result (State * list Event) :=
  render md (front_state md s i).

(** ** The main loop, second half: submission, dwell, reset *)

Definition newline : string := String "010"%char EmptyString.

(** The [String message = ...] expression of [loop]. *)
Definition message (md : MenuData) (s : State) (dateStr : string)
  : result string :=
  n <- index (names md) (selectedNameIndex s) ;;
  c <- index (classes md) (selectedClassIndex s) ;;
  m <- index (moods md) (selectedMoodIndex s) ;;
  Ok ((((((("Name: " ++ n) ++ (newline ++ "Class: ")) ++ c)
          ++ (newline ++ "Mood: ")) ++ m) ++ (newline ++ "Date: ")) ++ dateStr).

(** [while (millis() - confirmStart < 3000) { updateOLED(); yield(); }],
    one clock reading per element of [steps]. *)
Fixpoint dwell (md : MenuData) (s : State) (confirmStart : Z)
  (steps : list DwellStep) : result (State * list Event) :=
  match steps with
  | [] => Hang
  | d :: rest =>
      let s := isr_run s (dw_isr d) in
      if wrap_u32 (dw_millis d - confirmStart) <? 3000 then
        o <- updateOLED md s ;;
        r <- dwell md s confirmStart rest ;;
        Ok (fst r, o :: snd r)
      else Ok (s, [])
  end.

(** The five assignments under [// Reset to initial state]. *)
Definition reset (s : State) : State :=
  mkState STATE_NAME_SELECTION 0 0 0 (encoderPos s) (lastEncoded s)
    (lastButtonPressTime s) None (prevNameIndex s) (prevClassIndex s)
    (prevMoodIndex s).

(** The part of the submission block up to and including the second
    [displayMenu()]: the state on entering the dwell and the two events. *)
Definition submit_begin (md : MenuData) (s : State) (i : TickInput)
  : result (State * list Event) :=
  msg <- message md s (in_date i) ;;
  let s := isr_run s (in_isr_submit i) in
  let s := set_currentState s STATE_CONFIRMATION in
  e <- displayMenu md s ;;
  Ok (s, [Telegram msg; e]).

Definition submission (md : MenuData) (s : State) (i : TickInput)
  : result (State * list Event) :=
  match currentState s with
  | STATE_SUBMISSION =>
      b <- submit_begin md s i ;;
      r <- dwell md (fst b) (in_confirmStart i) (in_dwell i) ;;
      Ok (reset (fst r), (snd b ++ snd r)%list)
  | _ => Ok (s, [])
  end.

Definition loop (md : MenuData) (s : State) (i : TickInput)
  : result (State * list Event) :=
  f <- loop_front md s i ;;
  r <- submission md (fst f) i ;;
  Ok (fst r, (snd f ++ snd r)%list).

(** Successive iterations of [loop], one per input. *)
Fixpoint run (md : MenuData) (s : State) (ins : list TickInput)
  : result (State * list Event) :=
  match ins with
  | [] => Ok (s, [])
  | i :: rest =>
      r <- loop md s i ;;
      r' <- run md (fst r) rest ;;
      Ok (fst r', (snd r ++ snd r')%list)
  end.

(** ** [setup] *)

(** [while (WiFi.status() != WL_CONNECTED) delay(500);], one status per
    element, [true] for connected. *)
Fixpoint wifi_wait (statuses : list bool) : result unit :=
  match statuses with
  | [] => Hang
  | c :: rest => if c then Ok tt else wifi_wait rest
  end.

(** The screens of [startupAnimation()], in order; the delays between them
    are not events. *)
Definition startupAnimation : list Event :=
  [LcdLine "Welcome!"; LcdLine "Loading."; LcdLine "Loading..";
   LcdLine "Loading..."; LcdMenu "Student Emotion" "Recorder";
   LcdLine "By JET"; LcdClear].

(** [setupWiFi()]: the first status screen, the wait, the second status
    screen. *)
Definition setupWiFi (statuses : list bool) : result (list Event) :=
  _ <- wifi_wait statuses ;;
  Ok [OledWiFi false; OledWiFi true].

(** [setup()]: [oled_ok] is the value of [display.begin(0x3C, true)]; when
    it is false the sketch enters [for (;;);]. [samples] are the encoder
    samples serviced once the interrupts are attached. The trace holds the
    screens the sketch itself draws on the LCD and on the OLED, in order;
    [roboEyes.begin] and the two settings after it are calls into the
    library and draw nothing of the sketch's own. *)
Definition setup (md : MenuData) (s : State) (oled_ok : bool)
  (samples : list Sample) (statuses : list bool)
  : result (State * list Event) :=
  if oled_ok then
    let s := isr_run s samples in
    w <- setupWiFi statuses ;;
    let s := mkState (currentState s) (selectedNameIndex s)
               (selectedClassIndex s) (selectedMoodIndex s) (encoderPos s)
               (lastEncoded s) (lastButtonPressTime s) None (-1) (-1) (-1) in
    e <- displayMenu md s ;;
    Ok (s, (OledClear :: startupAnimation ++ w ++ [e; RoboEyes])%list)
  else Hang.

(** ** [urlEncode] and the request of [sendTelegramMessage] *)

(** [isalnum] in the C locale. *)
Definition isalnum (c : ascii) : bool :=
  let n := nat_of_ascii c in
  ((48 <=? n) && (n <=? 57) || (65 <=? n) && (n <=? 90)
   || (97 <=? n) && (n <=? 122))%nat.

Definition hex_digit (n : nat) : ascii :=
  if (n <? 10)%nat then ascii_of_nat (48 + n) else ascii_of_nat (55 + n).

(** [sprintf(buf, "%%%02X", c)]: a percent sign and the code of [c] as two
    upper-case hexadecimal digits. The code is that of an unsigned [char];
    for a character below 128 the signedness of [char] plays no part. *)
Definition percent_hex (c : ascii) : string :=
  String "%"
    (String (hex_digit (nat_of_ascii c / 16))
       (String (hex_digit (nat_of_ascii c mod 16)) EmptyString)).

(** The three branches of the body of the [for]. *)
Definition encode_char (c : ascii) : string :=
  if isalnum c then String c EmptyString
  else if Ascii.eqb c " " then "%20"
  else percent_hex c.

(** The [for] loop, [encoded] being the accumulator. *)
Fixpoint urlEncode_from (encoded str : string) : string :=
  match str with
  | EmptyString => encoded
  | String c rest => urlEncode_from (encoded ++ encode_char c) rest
  end.

Definition urlEncode (str : string) : string := urlEncode_from "" str.

Definition botToken : string := "token".
Definition chatID : string := "id".

Definition CRLF : string := String "013" (String "010" EmptyString).

(** [String url = ...] in [sendTelegramMessage]. *)
Definition telegram_url (message : string) : string :=
  "/bot" ++ botToken ++ "/sendMessage?chat_id=" ++ chatID ++ "&text="
  ++ urlEncode message.

(** The argument of [client.print]. *)
Definition telegram_request (message : string) : string :=
  "GET " ++ telegram_url message ++ " HTTP/1.1" ++ CRLF
  ++ "Host: api.telegram.org" ++ CRLF
  ++ "Connection: close" ++ CRLF ++ CRLF.

(** ** [getFormattedDate] *)

(** The three fields of [struct tm] the function reads. *)
Record tm : Type := {
  tm_mday : Z;
  tm_mon : Z;
  tm_year : Z
}.

(** The decimal digits of a number that is not negative. *)
Definition digits (n : Z) : string :=
  NilZero.string_of_uint (N.to_uint (Z.to_N n)).

Fixpoint zeros (k : nat) : string :=
  match k with
  | O => EmptyString
  | S k' => String "0" (zeros k')
  end.

(** The conversion [%0<width>d] of [sprintf]. *)
Definition fmt_0d (width : nat) (n : Z) : string :=
  if n <? 0 then
    "-" ++ zeros (width - 1 - String.length (digits (- n))) ++ digits (- n)
  else zeros (width - String.length (digits n)) ++ digits n.

(** [sprintf(buffer, "%02d/%02d/%04d", ...)] into [char buffer[11]]: ten
    characters and the terminator fit. *)
Definition getFormattedDate (timeInfo : tm) : result string :=
  let s := fmt_0d 2 (tm_mday timeInfo) ++ "/"
           ++ fmt_0d 2 (wrap32 (tm_mon timeInfo + 1)) ++ "/"
           ++ fmt_0d 4 (wrap32 (tm_year timeInfo + 1900)) in
  if (String.length s <=? 10)%nat then Ok s else Undefined.

(** ** [displayEmotion] *)

(** The drawing primitives, all in [SH110X_WHITE]. *)
Inductive Draw : Type :=
| DrawCircle (x y r : Z)
| FillCircle (x y r : Z)
| DrawLine (x0 y0 x1 y1 : Z).

(** What is drawn between [display.clearDisplay()] and
    [display.display()]. *)
Definition displayEmotion (moodIndex : Z) : list Draw :=
  if moodIndex =? 0 then
    [DrawCircle 64 32 20; FillCircle 56 26 2; FillCircle 72 26 2;
     DrawLine 56 38 72 38]
  else if moodIndex =? 1 then
    [DrawCircle 64 32 20; FillCircle 56 26 2; FillCircle 72 26 2;
     DrawLine 56 38 72 38]
  else if moodIndex =? 2 then
    [DrawCircle 64 32 20; FillCircle 56 26 2; FillCircle 72 26 2;
     DrawLine 56 42 72 42]
  else if moodIndex =? 3 then
    [DrawCircle 64 32 20; FillCircle 56 26 2; FillCircle 72 26 2;
     DrawLine 50 20 62 24; DrawLine 74 24 86 20; DrawLine 56 40 72 40]
  else if moodIndex =? 4 then
    [DrawCircle 64 32 20; FillCircle 56 26 3; FillCircle 72 26 3;
     DrawCircle 64 38 4]
  else [].

(** ** Counting the transitions the decoder sees *)

(** The four codes [updateEncoder] counts up and the four it counts down. *)
Definition forward_code (c : Z) : bool :=
  (c =? 13) || (c =? 4) || (c =? 2) || (c =? 11).

Definition backward_code (c : Z) : bool :=
  (c =? 14) || (c =? 7) || (c =? 1) || (c =? 8).

Definition valid_code (c : Z) : bool := forward_code c || backward_code c.

(** The transition codes met by a run of the interrupt that starts with the
    previous pair [last]. *)
Fixpoint codes (last : Z) (samples : list Sample) : list Z :=
  match samples with
  | [] => []
  | ab :: rest => transition_code last ab :: codes (encode ab) rest
  end.

Definition forward_steps (cs : list Z) : Z :=
  Z.of_nat (List.length (filter forward_code cs)).

Definition backward_steps (cs : list Z) : Z :=
  Z.of_nat (List.length (filter backward_code cs)).

(** ** Vocabulary of the statements *)

(** Whether the poll of iteration [i] accepts a press, given the time [t] of
    the last accepted press. *)
Definition accepts (t : Z) (i : TickInput) : bool :=
  in_button_low i && (200 <? wrap_u32 (in_millis i - t)).

(** The number of presses accepted along a sequence of iterations. *)
Fixpoint accepted_presses (t : Z) (ins : list TickInput) : nat :=
  match ins with
  | [] => 0%nat
  | i :: rest =>
      if accepts t i then S (accepted_presses (in_millis i) rest)
      else accepted_presses t rest
  end.

(** The phase the button [switch] moves to. *)
Definition next_phase (d : DeviceState) : DeviceState :=
  match d with
  | STATE_NAME_SELECTION => STATE_CLASS_SELECTION
  | STATE_CLASS_SELECTION => STATE_MOOD_SELECTION
  | STATE_MOOD_SELECTION => STATE_SUBMISSION
  | _ => d
  end.

(** The phase an iteration ends in when its first half ends in [d]. *)
Definition settle (d : DeviceState) : DeviceState :=
  match d with
  | STATE_SUBMISSION => STATE_NAME_SELECTION
  | _ => d
  end.

(** A state with the two variables of the interrupt blanked. *)
Definition forget_encoder (s : State) : State := set_encoder s 0 0.

(** Two inputs of an iteration that differ at most in what arrives while the
    phase is [STATE_SUBMISSION] or [STATE_CONFIRMATION]: the encoder samples
    serviced and the button levels present. The clock readings agree. *)
Definition same_outside_submission (i i' : TickInput) : Prop :=
  in_isr_pre i = in_isr_pre i'
  /\ in_button_low i = in_button_low i'
  /\ in_millis i = in_millis i'
  /\ in_isr_front i = in_isr_front i'
  /\ in_date i = in_date i'
  /\ in_confirmStart i = in_confirmStart i'
  /\ map dw_millis (in_dwell i) = map dw_millis (in_dwell i').

(** Two inputs of an iteration that differ at most in the encoder samples
    serviced after the drain (in an iteration that submits these arrive in
    [STATE_SUBMISSION] and [STATE_CONFIRMATION], from the button step on) and
    in the button levels present during the confirmation loop. *)
Definition same_but_late_input (i i' : TickInput) : Prop :=
  in_isr_pre i = in_isr_pre i'
  /\ in_button_low i = in_button_low i'
  /\ in_millis i = in_millis i'
  /\ in_date i = in_date i'
  /\ in_confirmStart i = in_confirmStart i'
  /\ map dw_millis (in_dwell i) = map dw_millis (in_dwell i').

(** The encoder samples serviced after the drain in an iteration whose
    confirmation loop makes the passes [passes]. *)
Definition late_samples (i : TickInput) (passes : list DwellStep)
  : list Sample :=
  (in_isr_front i ++ in_isr_submit i ++ List.concat (map dw_isr passes))%list.

(** Two states with the same two variables of the interrupt. *)
Definition same_encoder (a b : State) : Prop :=
  encoderPos a = encoderPos b /\ lastEncoded a = lastEncoded b.

(** Two outcomes that agree up to the variables of the interrupt. *)
Definition same_outcome (r r' : result (State * list Event)) : Prop :=
  match r, r' with
  | Ok a, Ok a' =>
      forget_encoder (fst a) = forget_encoder (fst a') /\ snd a = snd a'
  | Hang, Hang => True
  | Undefined, Undefined => True
  | _, _ => False
  end.

(** The four-line layout, written line by line. *)
Definition four_lines (name class mood date : string) : string :=
  String.concat newline
    ["Name: " ++ name; "Class: " ++ class; "Mood: " ++ mood; "Date: " ++ date].

Definition is_telegram (e : Event) : bool :=
  match e with
  | Telegram _ => true
  | _ => false
  end.

(** Elapsed time of a pass of the confirmation loop, as the loop computes
    it. *)
Definition elapsed (confirmStart : Z) (d : DwellStep) : Z :=
  wrap_u32 (dw_millis d - confirmStart).

(** The same menu with another list of mood messages. *)
Definition with_moodMessages (md : MenuData) (mm : list string) : MenuData :=
  {| names := names md; classes := classes md; moods := moods md;
     moodMessages := mm |}.

(** ** Vocabulary of the further properties *)

(** The pair the decoder remembers after a run. *)
Definition final_pair (last : Z) (samples : list Sample) : Z :=
  fold_left (fun _ ab => encode ab) samples last.

(** The place of a pair in the forward cycle 00, 10, 11, 01. *)
Definition gray (e : Z) : Z :=
  if e =? 2 then 1 else if e =? 3 then 2 else if e =? 1 then 3 else 0.

Definition changed (a b : bool) : bool := negb (Bool.eqb a b).

(** Exactly one of the two signals differs between two samples. *)
Definition one_signal_changed (p q : Sample) : bool :=
  xorb (changed (fst p) (fst q)) (changed (snd p) (snd q)).

(** No two successive samples differ in both signals. *)
Fixpoint no_skip (p : Sample) (samples : list Sample) : bool :=
  match samples with
  | [] => true
  | q :: rest =>
      negb (changed (fst p) (fst q) && changed (snd p) (snd q))
      && no_skip q rest
  end.

(** Successive polls of the button, each a pin level and a clock value; the
    clock values of the accepted ones. *)
Fixpoint accepted_times (s : State) (polls : list (bool * Z)) : list Z :=
  match polls with
  | [] => []
  | (low, now) :: rest =>
      let r := isButtonPressed s low now in
      if fst r then now :: accepted_times (snd r) rest
      else accepted_times (snd r) rest
  end.

(** Each time is more than 200 ms after the one before, [prev] first. *)
Fixpoint spaced (prev : Z) (times : list Z) : Prop :=
  match times with
  | [] => True
  | t :: rest => 200 < wrap_u32 (t - prev) /\ spaced t rest
  end.

(** The indices are inside their arrays and every mood has a message. *)
Definition valid_selection (md : MenuData) (s : State) : Prop :=
  0 <= selectedNameIndex s < numNames md
  /\ 0 <= selectedClassIndex s < numClasses md
  /\ 0 <= selectedMoodIndex s < numMoods md
  /\ (List.length (moods md) <= List.length (moodMessages md))%nat.

(** The length of the array the current phase selects from. *)
Definition current_length (md : MenuData) (s : State) : Z :=
  match currentState s with
  | STATE_NAME_SELECTION => numNames md
  | STATE_CLASS_SELECTION => numClasses md
  | STATE_MOOD_SELECTION => numMoods md
  | _ => 1
  end.

(** The index the current phase selects (0 outside the selecting phases). *)
Definition current_index (s : State) : Z :=
  match currentState s with
  | STATE_NAME_SELECTION => selectedNameIndex s
  | STATE_CLASS_SELECTION => selectedClassIndex s
  | STATE_MOOD_SELECTION => selectedMoodIndex s
  | _ => 0
  end.

(** Every character is below 128. *)
Fixpoint seven_bit (s : string) : bool :=
  match s with
  | EmptyString => true
  | String c rest => (nat_of_ascii c <? 128)%nat && seven_bit rest
  end.

Fixpoint all_chars (f : ascii -> bool) (s : string) : bool :=
  match s with
  | EmptyString => true
  | String c rest => f c && all_chars f rest
  end.

Fixpoint count_char (c : ascii) (s : string) : nat :=
  match s with
  | EmptyString => O
  | String x rest =>
      if Ascii.eqb x c then S (count_char c rest) else count_char c rest
  end.

Definition is_digit (c : ascii) : bool :=
  ((48 <=? nat_of_ascii c) && (nat_of_ascii c <=? 57))%nat.

(** The number a string of decimal digits writes. *)
Definition number_of (s : string) : Z :=
  (fix go (acc : Z) (s : string) : Z :=
     match s with
     | EmptyString => acc
     | String c rest => go (10 * acc + (Z.of_nat (nat_of_ascii c) - 48)) rest
     end) 0 s.

(** A field of the date: [width] digits that write [z]. *)
Definition field_ok (width : nat) (z : Z) : bool :=
  (String.length (fmt_0d width z) =? width)%nat
  && all_chars is_digit (fmt_0d width z)
  && (number_of (fmt_0d width z) =? z).

(** The value of a hexadecimal digit (0 for any other character). *)
Definition hex_value (c : ascii) : nat :=
  let n := nat_of_ascii c in
  if ((48 <=? n) && (n <=? 57))%nat then (n - 48)%nat
  else if ((65 <=? n) && (n <=? 70))%nat then (n - 55)%nat
  else O.

(** Percent-decoding: [%XY] stands for the character of code [XY]. *)
Fixpoint urlDecode (s : string) : string :=
  match s with
  | EmptyString => EmptyString
  | String c rest =>
      if Ascii.eqb c "%" then
        match rest with
        | String a (String b rest') =>
            String (ascii_of_nat (16 * hex_value a + hex_value b))
              (urlDecode rest')
        | _ => String c (urlDecode rest)
        end
      else String c (urlDecode rest)
  end.

(** ** Sample inputs *)

(** Five backward steps of the knob: the pairs 01, 11, 10, 00, 01 after 00. *)
Definition five_back : list Sample :=
  [(false, true); (true, true); (true, false); (false, false); (false, true)].

(** An iteration without a press, [pre] serviced before the drain. *)
Definition idle_tick (pre : list Sample) : TickInput := {|
  in_isr_pre := pre;
  in_button_low := false;
  in_millis := 1000;
  in_isr_front := [];
  in_date := "01/01/2025";
  in_isr_submit := [];
  in_confirmStart := 0;
  in_dwell := []
|}.

(** An iteration with the button low at time [now]; should it submit, the
    confirmation loop sees [dw]. *)
Definition press_tick (now : Z) (dw : list DwellStep) : TickInput := {|
  in_isr_pre := [];
  in_button_low := true;
  in_millis := now;
  in_isr_front := [];
  in_date := "01/01/2025";
  in_isr_submit := [];
  in_confirmStart := now + 250;
  in_dwell := dw
|}.

Definition pass (samples : list Sample) (low : bool) (now : Z) : DwellStep :=
  {| dw_isr := samples; dw_button_low := low; dw_millis := now |}.

(** The state and the trace of an outcome ([initial] and the empty trace
    when there is none), to name the states of a concrete run. *)
Definition state_of (r : result (State * list Event)) : State :=
  match r with
  | Ok a => fst a
  | _ => initial
  end.

Definition trace_of (r : result (State * list Event)) : list Event :=
  match r with
  | Ok a => snd a
  | _ => []
  end.

(** The lists of the end-to-end scenario. *)
Definition scenario : MenuData := {|
  names := ["A"; "B"];
  classes := ["X"; "Y"];
  moods := ["Happy"; "Sad"];
  moodMessages := ["m0"; "m1"]
|}.

(** Two accepted presses, then a third whose confirmation loop reads the
    clock 150 ms and 3150 ms after [confirmStart]. *)
Definition two_presses : list TickInput :=
  [press_tick 1000 []; press_tick 1300 []].

Definition third_press : TickInput :=
  press_tick 1600 [pass [] false 2000; pass [] false 5000].

(** The third press again, with the knob turned one step forward during the
    first pass of the confirmation loop. *)
Definition third_press_turned : TickInput :=
  press_tick 1600 [pass [(true, false)] true 2000; pass [] false 5000].

(** The third press again, with the knob turned one step forward between
    the button step and the submission block. *)
Definition third_press_early_turn : TickInput := {|
  in_isr_pre := [];
  in_button_low := true;
  in_millis := 1600;
  in_isr_front := [(true, false)];
  in_date := "01/01/2025";
  in_isr_submit := [];
  in_confirmStart := 1850;
  in_dwell := [pass [] false 2000; pass [] false 5000]
|}.

(** The scenario with one mood message missing. *)
Definition mismatched : MenuData := with_moodMessages scenario ["m0"].

(** Mood selection, already drawn on both displays. *)
Definition mood_idle : State :=
  snapshot (set_currentState initial STATE_MOOD_SELECTION).

(** A third press whose confirmation loop makes three passes before the
    deadline. *)
Definition long_confirmation : TickInput :=
  press_tick 1600
    [pass [] false 2000; pass [] false 2001; pass [] false 2002;
     pass [] false 5000].

(** * Properties *)

(** ** Machine integers *)

Lemma wrap32_small (z : Z) : INT_MIN <= z <= INT_MAX -> wrap32 z = z.
Proof.
  unfold wrap32, INT_MIN, INT_MAX. intros H.
  rewrite Z.mod_small; lia.
Qed.

Lemma wrap32_range (z : Z) : INT_MIN <= wrap32 z <= INT_MAX.
Proof.
  unfold wrap32, INT_MIN, INT_MAX.
  pose proof (Z.mod_pos_bound (z + 2 ^ 31) (2 ^ 32) ltac:(lia)). lia.
Qed.

Lemma wrap32_add_l (a b : Z) : wrap32 (wrap32 a + b) = wrap32 (a + b).
Proof.
  unfold wrap32.
  replace ((a + 2 ^ 31) mod 2 ^ 32 - 2 ^ 31 + b + 2 ^ 31)
    with ((a + 2 ^ 31) mod 2 ^ 32 + b) by lia.
  rewrite Z.add_mod_idemp_l by lia.
  f_equal. f_equal. lia.
Qed.

(** ** Quadrature decoder *)

Lemma forward_backward_disjoint (c : Z) :
  forward_code c = true -> backward_code c = false.
Proof.
  unfold forward_code, backward_code. intros H.
  repeat (apply orb_prop in H; destruct H as [H | H]);
    apply Z.eqb_eq in H; subst c; reflexivity.
Qed.

Lemma updateEncoder_lastEncoded (s : State) (ab : Sample) :
  lastEncoded (updateEncoder s ab) = encode ab.
Proof.
  unfold updateEncoder.
  repeat match goal with |- context [if ?b then _ else _] => destruct b end;
    reflexivity.
Qed.

(** What one interrupt does to the counter, by the class of its code. *)
Lemma updateEncoder_encoderPos (s : State) (ab : Sample) :
  encoderPos (updateEncoder s ab) =
  let c := transition_code (lastEncoded s) ab in
  if forward_code c then wrap32 (encoderPos s + 1)
  else if backward_code c then wrap32 (encoderPos s - 1)
  else encoderPos s.
Proof.
  unfold updateEncoder, transition_code, forward_code, backward_code. cbv zeta.
  repeat match goal with |- context [if ?b then _ else _] => destruct b end;
    reflexivity.
Qed.

(** The interrupt touches the two encoder variables only. *)
Lemma updateEncoder_frame (s : State) (ab : Sample) :
  updateEncoder s ab =
  set_encoder s (encoderPos (updateEncoder s ab)) (encode ab).
Proof.
  unfold updateEncoder.
  repeat match goal with |- context [if ?b then _ else _] => destruct b end;
    reflexivity.
Qed.

Lemma isr_run_frame (samples : list Sample) (s : State) :
  isr_run s samples =
  set_encoder s (encoderPos (isr_run s samples))
    (lastEncoded (isr_run s samples)).
Proof.
  revert s. induction samples as [| ab rest IH]; intros s.
  - destruct s; reflexivity.
  - unfold isr_run in *. cbn [fold_left].
    rewrite IH at 1. rewrite (updateEncoder_frame s ab) at 1. reflexivity.
Qed.

Lemma steps_le_length (last : Z) (samples : list Sample) :
  0 <= forward_steps (codes last samples)
  /\ 0 <= backward_steps (codes last samples)
  /\ forward_steps (codes last samples) + backward_steps (codes last samples)
     <= Z.of_nat (List.length samples).
Proof.
  unfold forward_steps, backward_steps.
  revert last. induction samples as [| ab rest IH]; intros last.
  - cbn. lia.
  - cbn [codes filter List.length].
    specialize (IH (encode ab)).
    destruct (forward_code (transition_code last ab)) eqn:F.
    + rewrite (forward_backward_disjoint _ F). cbn [List.length]. lia.
    + destruct (backward_code (transition_code last ab)); cbn [List.length]; lia.
Qed.

(** The counter after a run, modulo the width of [int]. *)
Lemma isr_run_encoderPos (samples : list Sample) (s : State) :
  INT_MIN <= encoderPos s <= INT_MAX ->
  encoderPos (isr_run s samples) =
  wrap32 (encoderPos s
          + forward_steps (codes (lastEncoded s) samples)
          - backward_steps (codes (lastEncoded s) samples)).
Proof.
  unfold forward_steps, backward_steps.
  revert s. induction samples as [| ab rest IH]; intros s Hr.
  - cbn [codes filter List.length Z.of_nat]. unfold isr_run. cbn [fold_left].
    rewrite wrap32_small; lia.
  - unfold isr_run in *. cbn [fold_left codes filter].
    pose proof (updateEncoder_encoderPos s ab) as E. cbv zeta in E.
    pose proof (updateEncoder_lastEncoded s ab) as L.
    rewrite IH.
    2:{ rewrite E.
        destruct (forward_code _); [apply wrap32_range |].
        destruct (backward_code _); [apply wrap32_range | exact Hr]. }
    rewrite L, E.
    destruct (forward_code (transition_code (lastEncoded s) ab)) eqn:F.
    + rewrite (forward_backward_disjoint _ F). cbn [List.length].
      rewrite <- Z.add_sub_assoc, wrap32_add_l. f_equal. lia.
    + destruct (backward_code (transition_code (lastEncoded s) ab));
        cbn [List.length].
      * rewrite <- Z.add_sub_assoc, wrap32_add_l. f_equal. lia.
      * reflexivity.
Qed.

Lemma isr_run_invalid_only (samples : list Sample) (s : State) :
  forallb (fun c => negb (valid_code c)) (codes (lastEncoded s) samples) = true ->
  encoderPos (isr_run s samples) = encoderPos s.
Proof.
  revert s. induction samples as [| ab rest IH]; intros s H.
  - reflexivity.
  - unfold isr_run in *. cbn [fold_left]. cbn [codes forallb] in H.
    apply andb_prop in H. destruct H as [H1 H2].
    rewrite IH.
    + rewrite updateEncoder_encoderPos. cbv zeta.
      unfold valid_code in H1.
      destruct (forward_code _); [discriminate |].
      destruct (backward_code _); [discriminate | reflexivity].
    + rewrite updateEncoder_lastEncoded. exact H2.
Qed.

(** C3. Between two drains, the value the main loop reads from the counter is
    the number of forward codes minus the number of backward codes among the
    transition codes the interrupt met, as long as the samples are fewer than
    the range of [int] (and is that difference wrapped to 32 bits for any
    number of samples); one interrupt moves the counter by +1 on a forward
    code, by -1 on a backward code and not at all on any other code; a run
    that meets no valid code reads as 0. *)
Theorem C3_decoder_counts_valid_transitions :
  (forall (s : State) (samples : list Sample),
      let s0 := snd (drain s) in
      let cs := codes (lastEncoded s0) samples in
      fst (drain (isr_run s0 samples))
        = wrap32 (forward_steps cs - backward_steps cs)
      /\ (Z.of_nat (List.length samples) <= INT_MAX ->
          fst (drain (isr_run s0 samples))
            = forward_steps cs - backward_steps cs)
      /\ (forallb (fun c => negb (valid_code c)) cs = true ->
          fst (drain (isr_run s0 samples)) = 0))
  /\ (forall (s : State) (ab : Sample),
      let c := transition_code (lastEncoded s) ab in
      (forward_code c = true -> encoderPos s < INT_MAX ->
       INT_MIN <= encoderPos s ->
       encoderPos (updateEncoder s ab) = encoderPos s + 1)
      /\ (backward_code c = true -> INT_MIN < encoderPos s ->
          encoderPos s <= INT_MAX ->
          encoderPos (updateEncoder s ab) = encoderPos s - 1)
      /\ (valid_code c = false ->
          encoderPos (updateEncoder s ab) = encoderPos s)).
Proof.
  split.
  - intros s samples s0 cs. unfold drain in *. cbn [fst snd] in *.
    assert (R : INT_MIN <= encoderPos s0 <= INT_MAX)
      by (subst s0; cbn; unfold INT_MIN, INT_MAX; lia).
    assert (Z0 : encoderPos s0 = 0) by (subst s0; reflexivity).
    pose proof (isr_run_encoderPos samples s0 R) as E. rewrite Z0 in E.
    cbn [Z.add] in E. fold cs in E.
    split; [exact E |]. split.
    + intros Hlen. rewrite E.
      pose proof (steps_le_length (lastEncoded s0) samples) as B. fold cs in B.
      apply wrap32_small. unfold INT_MIN, INT_MAX in *. lia.
    + intros Hinv. rewrite (isr_run_invalid_only samples s0 Hinv). exact Z0.
  - intros s ab c. pose proof (updateEncoder_encoderPos s ab) as E.
    cbv zeta in E. fold c in E. repeat split.
    + intros F ? ?. rewrite E, F. apply wrap32_small. lia.
    + intros B ? ?. rewrite E, B.
      destruct (forward_code c) eqn:F.
      * rewrite (forward_backward_disjoint _ F) in B. discriminate.
      * apply wrap32_small. lia.
    + intros V. unfold valid_code in V. apply orb_false_elim in V.
      destruct V as [F B]. rewrite E, F, B. reflexivity.
Qed.

(** Two forward steps followed by a bounce read as 2 at the next drain. *)
Lemma C3_decoder_witness :
  Z.of_nat (List.length [(true, false); (true, true); (false, false)])
    <= INT_MAX
  /\ fst (drain (isr_run (snd (drain initial))
                   [(true, false); (true, true); (false, false)])) = 2.
Proof.
  split; [vm_compute; discriminate |].
  destruct C3_decoder_counts_valid_transitions as [H _].
  destruct (H initial [(true, false); (true, true); (false, false)])
    as (_ & H2 & _).
  rewrite H2; [reflexivity | vm_compute; discriminate].
Defined.

(** ** Debounced button reader *)

(** C4, as stated, fails: with the button held low exactly 200 ms after the
    last accepted press, 200 ms have elapsed and the poll returns false. *)
Lemma C4_press_after_exactly_200ms_rejected :
  200 <= wrap_u32
           (1200 - lastButtonPressTime (set_lastButtonPressTime initial 1000))
  /\ isButtonPressed (set_lastButtonPressTime initial 1000) true 1200
     = (false, set_lastButtonPressTime initial 1000).
Proof. split; [vm_compute; discriminate | reflexivity]. Qed.

(** C4, amended. The poll returns true exactly when the level reads pressed
    and strictly more than 200 ms (difference of the two 32-bit unsigned
    tick values) separate [now] from the last accepted press; on acceptance
    the stored time becomes [now] and nothing else changes; in every other
    case it returns false and changes nothing. *)
Theorem C4_isButtonPressed_strictly_more_than_200ms
  (s : State) (low : bool) (now : Z) :
  (fst (isButtonPressed s low now) = true
   <-> low = true /\ 200 < wrap_u32 (now - lastButtonPressTime s))
  /\ isButtonPressed s low now
     = if fst (isButtonPressed s low now)
       then (true, set_lastButtonPressTime s now)
       else (false, s).
Proof.
  unfold isButtonPressed.
  destruct low; [| cbn; split; [split; [discriminate | intros [? _]; discriminate] | reflexivity]].
  destruct (200 <? wrap_u32 (now - lastButtonPressTime s)) eqn:E; cbn [fst].
  - apply Z.ltb_lt in E. split; [tauto | reflexivity].
  - apply Z.ltb_ge in E. split; [| reflexivity].
    split; [discriminate | intros [_ H]; lia].
Qed.

(** A press 201 ms after the last accepted one is accepted. *)
Lemma C4_isButtonPressed_witness :
  isButtonPressed (set_lastButtonPressTime initial 1000) true 1201
  = (true, set_lastButtonPressTime initial 1201).
Proof.
  destruct (C4_isButtonPressed_strictly_more_than_200ms
              (set_lastButtonPressTime initial 1000) true 1201) as [_ H].
  rewrite H. reflexivity.
Defined.

(** ** Rotation *)

(** Where the index formula is safe: the sum [current + pos + n] is not
    negative and fits an [int]. *)
Lemma wrap_step_in_range (current pos n : Z) :
  0 < n -> INT_MIN <= current + pos <= INT_MAX ->
  0 <= current + pos + n <= INT_MAX ->
  0 <= wrap_step current pos n < n.
Proof.
  intros Hn H1 H2. unfold wrap_step.
  rewrite (wrap32_small (current + pos)) by exact H1.
  rewrite wrap32_small by (unfold INT_MIN, INT_MAX in *; lia).
  rewrite Z.rem_mod_nonneg by lia.
  apply Z.mod_pos_bound. exact Hn.
Qed.

(** Below that, C's remainder keeps the sign of the sum. *)
Lemma wrap_step_negative (current pos n : Z) :
  0 < n -> INT_MIN <= current + pos -> current + pos + n < 0 ->
  - n < wrap_step current pos n <= 0.
Proof.
  intros Hn H1 H2. unfold wrap_step.
  rewrite (wrap32_small (current + pos))
    by (unfold INT_MIN, INT_MAX in *; lia).
  rewrite wrap32_small by (unfold INT_MIN, INT_MAX in *; lia).
  apply Z.rem_bound_pos_neg; lia.
Qed.

(** C1 fails on the code. With the name index at 0 and five backward steps
    counted since the last drain, the drained delta is -5, the new index is
    [(0 - 5 + 4) % 4 = -1], and the iteration goes on to read [names[-1]]. *)
Theorem C1_rotate_five_back_leaves_range :
  fst (drain (isr_run initial five_back)) = -5
  /\ wrap_step 0 (-5) (numNames sketch) = -1
  /\ selectedNameIndex (rotate sketch (snd (drain (isr_run initial five_back))) (-5))
     = -1
  /\ loop sketch initial (idle_tick five_back) = Undefined.
Proof. repeat split; vm_compute; reflexivity. Qed.

(** ** Frame properties of the parts of [loop] *)

Lemma isr_run_forget (samples : list Sample) (s : State) :
  forget_encoder (isr_run s samples) = forget_encoder s.
Proof. rewrite isr_run_frame. reflexivity. Qed.

Lemma isr_run_currentState (samples : list Sample) (s : State) :
  currentState (isr_run s samples) = currentState s.
Proof. rewrite isr_run_frame. reflexivity. Qed.

Lemma isr_run_lastButtonPressTime (samples : list Sample) (s : State) :
  lastButtonPressTime (isr_run s samples) = lastButtonPressTime s.
Proof. rewrite isr_run_frame. reflexivity. Qed.

Lemma isr_run_app (s : State) (l1 l2 : list Sample) :
  isr_run s (l1 ++ l2) = isr_run (isr_run s l1) l2.
Proof. unfold isr_run. apply fold_left_app. Qed.

Lemma rotate_currentState (md : MenuData) (s : State) (pos : Z) :
  currentState (rotate md s pos) = currentState s.
Proof.
  unfold rotate. destruct (pos =? 0); [reflexivity |].
  destruct (currentState s) eqn:E; cbn; auto.
Qed.

Lemma rotate_lastButtonPressTime (md : MenuData) (s : State) (pos : Z) :
  lastButtonPressTime (rotate md s pos) = lastButtonPressTime s.
Proof.
  unfold rotate. destruct (pos =? 0); [reflexivity |].
  destruct (currentState s); reflexivity.
Qed.

Lemma press_currentState (s : State) :
  currentState (press s) = next_phase (currentState s).
Proof. unfold press. destruct (currentState s) eqn:E; cbn; auto. Qed.

Lemma press_lastButtonPressTime (s : State) :
  lastButtonPressTime (press s) = lastButtonPressTime s.
Proof. unfold press. destruct (currentState s); reflexivity. Qed.

(** The phase at the end of the first half of an iteration. *)
Lemma front_state_currentState (md : MenuData) (s : State) (i : TickInput) :
  currentState (front_state md s i) =
  if accepts (lastButtonPressTime s) i then next_phase (currentState s)
  else currentState s.
Proof.
  unfold front_state, drain, accepts, isButtonPressed.
  rewrite rotate_lastButtonPressTime. cbn [lastButtonPressTime set_encoder].
  rewrite isr_run_lastButtonPressTime.
  destruct (in_button_low i); cbn [andb].
  - destruct (200 <? _); rewrite isr_run_currentState.
    + rewrite press_currentState. cbn [currentState set_lastButtonPressTime].
      rewrite rotate_currentState. cbn. apply f_equal, isr_run_currentState.
    + rewrite rotate_currentState. cbn. apply isr_run_currentState.
  - rewrite isr_run_currentState, rotate_currentState. cbn.
    apply isr_run_currentState.
Qed.

Lemma front_state_lastButtonPressTime (md : MenuData) (s : State)
  (i : TickInput) :
  lastButtonPressTime (front_state md s i) =
  if accepts (lastButtonPressTime s) i then in_millis i
  else lastButtonPressTime s.
Proof.
  unfold front_state, drain, accepts, isButtonPressed.
  rewrite rotate_lastButtonPressTime. cbn [lastButtonPressTime set_encoder].
  rewrite isr_run_lastButtonPressTime.
  destruct (in_button_low i); cbn [andb].
  - destruct (200 <? _); rewrite isr_run_lastButtonPressTime.
    + rewrite press_lastButtonPressTime. reflexivity.
    + rewrite rotate_lastButtonPressTime. cbn. apply isr_run_lastButtonPressTime.
  - rewrite isr_run_lastButtonPressTime, rotate_lastButtonPressTime. cbn.
    apply isr_run_lastButtonPressTime.
Qed.

(** [render] leaves everything but the tracking variables alone, and draws
    the OLED last. *)
Lemma render_inv (md : MenuData) (s s' : State) (tr : list Event) :
  render md s = Ok (s', tr) ->
  (s' = s \/ s' = snapshot s)
  /\ exists lcd o, tr = (lcd ++ [o])%list
       /\ updateOLED md s = Ok o
       /\ ((menu_changed s = false /\ lcd = [] /\ s' = s)
           \/ (menu_changed s = true /\ s' = snapshot s
               /\ exists e, displayMenu md s = Ok e /\ lcd = [e])).
Proof.
  unfold render. destruct (menu_changed s).
  - destruct (displayMenu md s) as [e | |] eqn:D; cbn; try discriminate.
    replace (updateOLED md (snapshot s)) with (updateOLED md s)
      by (destruct s; reflexivity).
    destruct (updateOLED md s) as [o | |] eqn:O; cbn; try discriminate.
    intros H. injection H as <- <-. split; [now right |].
    exists [e], o. split; [reflexivity |]. split; [reflexivity |].
    right. repeat split. now exists e.
  - destruct (updateOLED md s) as [o | |] eqn:O; cbn; try discriminate.
    intros H. injection H as <- <-. split; [now left |].
    exists [], o. split; [reflexivity |]. split; [reflexivity |].
    left. repeat split.
Qed.

Lemma render_currentState (md : MenuData) (s s' : State) (tr : list Event) :
  render md s = Ok (s', tr) ->
  currentState s' = currentState s
  /\ lastButtonPressTime s' = lastButtonPressTime s
  /\ selectedNameIndex s' = selectedNameIndex s
  /\ selectedClassIndex s' = selectedClassIndex s
  /\ selectedMoodIndex s' = selectedMoodIndex s
  /\ encoderPos s' = encoderPos s
  /\ lastEncoded s' = lastEncoded s.
Proof.
  intros H. apply render_inv in H. destruct H as [[-> | ->] _];
    repeat split; reflexivity.
Qed.

(** The display routines and the message do not read the variables of the
    interrupt. *)
Lemma updateOLED_forget (md : MenuData) (s : State) :
  updateOLED md s = updateOLED md (forget_encoder s).
Proof. destruct s; reflexivity. Qed.

Lemma displayMenu_forget (md : MenuData) (s : State) :
  displayMenu md s = displayMenu md (forget_encoder s).
Proof. destruct s; reflexivity. Qed.

Lemma message_forget (md : MenuData) (s : State) (date : string) :
  message md s date = message md (forget_encoder s) date.
Proof. destruct s; reflexivity. Qed.

Lemma updateOLED_isr_run (md : MenuData) (s : State) (l : list Sample) :
  updateOLED md (isr_run s l) = updateOLED md s.
Proof.
  rewrite updateOLED_forget, isr_run_forget, <- updateOLED_forget.
  reflexivity.
Qed.

(** ** The confirmation loop *)

(** When the loop ends, it ends at the first reading that is 3000 ms or more
    past [confirmStart]; it has drawn the OLED once per earlier reading. *)
Lemma dwell_inv (md : MenuData) (confirmStart : Z) (steps : list DwellStep) :
  forall (s s' : State) (tr : list Event),
    dwell md s confirmStart steps = Ok (s', tr) ->
    exists before d after,
      steps = (before ++ d :: after)%list
      /\ Forall (fun x => elapsed confirmStart x < 3000) before
      /\ 3000 <= elapsed confirmStart d
      /\ s' = isr_run s (List.concat (map dw_isr (before ++ [d])))
      /\ List.length tr = List.length before
      /\ Forall (fun o => updateOLED md s = Ok o) tr.
Proof.
  induction steps as [| d rest IH]; intros s s' tr H; [discriminate |].
  cbn [dwell] in H. fold (elapsed confirmStart d) in H.
  destruct (elapsed confirmStart d <? 3000) eqn:E.
  - apply Z.ltb_lt in E.
    rewrite updateOLED_isr_run in H.
    destruct (updateOLED md s) as [o | |] eqn:O; cbn in H; try discriminate.
    destruct (dwell md (isr_run s (dw_isr d)) confirmStart rest)
      as [[s1 tr1] | |] eqn:D; cbn in H; try discriminate.
    injection H as <- <-.
    destruct (IH _ _ _ D) as (before & d' & after & -> & Hb & Hd & Hs & Hl & Ho).
    exists (d :: before), d', after. repeat split.
    + constructor; assumption.
    + exact Hd.
    + rewrite Hs. cbn [app map List.concat]. rewrite isr_run_app. reflexivity.
    + cbn. rewrite Hl. reflexivity.
    + constructor; [reflexivity |].
      rewrite updateOLED_isr_run in Ho. rewrite O in Ho. exact Ho.
  - apply Z.ltb_ge in E. injection H as <- <-.
    exists [], d, rest. repeat split.
    + constructor.
    + exact E.
    + cbn. rewrite app_nil_r. reflexivity.
    + constructor.
Qed.

(** The loop does end at such a reading, provided the OLED routine is
    defined on the state. *)
Lemma dwell_returns (md : MenuData) (confirmStart : Z) (o : Event)
  (before : list DwellStep) (d : DwellStep) (after : list DwellStep) :
  forall s : State,
    Forall (fun x => elapsed confirmStart x < 3000) before ->
    3000 <= elapsed confirmStart d ->
    updateOLED md s = Ok o ->
    dwell md s confirmStart (before ++ d :: after)
    = Ok (isr_run s (List.concat (map dw_isr (before ++ [d]))),
          repeat o (List.length before)).
Proof.
  induction before as [| b before IH]; intros s Hb Hd Ho.
  - cbn [app dwell]. fold (elapsed confirmStart d).
    destruct (elapsed confirmStart d <? 3000) eqn:E;
      [apply Z.ltb_lt in E; lia |].
    cbn. rewrite app_nil_r. reflexivity.
  - inversion Hb as [| ? ? Hb1 Hb2]; subst.
    cbn [app dwell]. fold (elapsed confirmStart b).
    destruct (elapsed confirmStart b <? 3000) eqn:E;
      [| apply Z.ltb_ge in E; lia].
    rewrite updateOLED_isr_run, Ho. cbn [bind].
    rewrite IH; [| assumption | assumption | now rewrite updateOLED_isr_run].
    cbn [fst snd bind List.length repeat app map List.concat].
    rewrite isr_run_app. reflexivity.
Qed.

(** While every reading is short of 3000 ms the loop has not ended. *)
Lemma dwell_not_before (md : MenuData) (confirmStart : Z)
  (steps : list DwellStep) (s : State) :
  Forall (fun x => elapsed confirmStart x < 3000) steps ->
  forall r, dwell md s confirmStart steps <> Ok r.
Proof.
  intros F [s' tr] H. apply dwell_inv in H.
  destruct H as (before & d & after & -> & _ & Hd & _).
  apply Forall_app in F. destruct F as [_ F].
  inversion F; subst. lia.
Qed.

(** ** The submission block and the whole iteration *)

Lemma submission_skip (md : MenuData) (s : State) (i : TickInput) :
  currentState s <> STATE_SUBMISSION -> submission md s i = Ok (s, []).
Proof.
  unfold submission. destruct (currentState s); congruence.
Qed.

Lemma submission_inv (md : MenuData) (s s' : State) (i : TickInput)
  (tr : list Event) :
  currentState s = STATE_SUBMISSION ->
  submission md s i = Ok (s', tr) ->
  exists msg sd trd,
    message md s (in_date i) = Ok msg
    /\ dwell md
         (set_currentState (isr_run s (in_isr_submit i)) STATE_CONFIRMATION)
         (in_confirmStart i) (in_dwell i) = Ok (sd, trd)
    /\ s' = reset sd
    /\ tr = Telegram msg :: LcdMenu "Submitted!" "Thank you!" :: trd.
Proof.
  intros P H. unfold submission in H. rewrite P in H.
  unfold submit_begin in H.
  destruct (message md s (in_date i)) as [msg | |] eqn:M; cbn in H;
    try discriminate.
  destruct (dwell md _ (in_confirmStart i) (in_dwell i))
    as [[sd trd] | |] eqn:D; cbn in H; try discriminate.
  injection H as <- <-.
  exists msg, sd, trd. repeat split.
Qed.

Lemma loop_inv (md : MenuData) (s s' : State) (i : TickInput)
  (tr : list Event) :
  loop md s i = Ok (s', tr) ->
  exists f trf trs,
    render md (front_state md s i) = Ok (f, trf)
    /\ submission md f i = Ok (s', trs)
    /\ tr = (trf ++ trs)%list.
Proof.
  unfold loop, loop_front. intros H.
  destruct (render md (front_state md s i)) as [[f trf] | |] eqn:R; cbn in H;
    try discriminate.
  destruct (submission md f i) as [[s2 trs] | |] eqn:S; cbn in H;
    try discriminate.
  injection H as <- <-. exists f, trf, trs. repeat split. exact S.
Qed.

(** Phase and debounce time at the end of an iteration. *)
Lemma loop_step (md : MenuData) (s s' : State) (i : TickInput)
  (tr : list Event) :
  loop md s i = Ok (s', tr) ->
  currentState s' = settle (currentState (front_state md s i))
  /\ lastButtonPressTime s'
     = if accepts (lastButtonPressTime s) i then in_millis i
       else lastButtonPressTime s.
Proof.
  intros H. apply loop_inv in H.
  destruct H as (f & trf & trs & R & S & _).
  apply render_currentState in R. destruct R as (Rc & Rt & _).
  rewrite <- Rc, <- front_state_lastButtonPressTime with (md := md), <- Rt.
  destruct (DeviceState_eqb (currentState f) STATE_SUBMISSION) eqn:E.
  - assert (P : currentState f = STATE_SUBMISSION)
      by (destruct (currentState f); try discriminate; reflexivity).
    destruct (submission_inv _ _ _ _ _ P S) as (msg & sd & trd & _ & D & -> & _).
    rewrite P. split; [reflexivity |]. cbn [reset lastButtonPressTime].
    apply dwell_inv in D. destruct D as (? & ? & ? & _ & _ & _ & -> & _).
    rewrite isr_run_lastButtonPressTime. cbn.
    apply isr_run_lastButtonPressTime.
  - assert (P : currentState f <> STATE_SUBMISSION)
      by (intros Q; rewrite Q in E; discriminate).
    rewrite (submission_skip _ _ _ P) in S. injection S as <- _.
    split; [| reflexivity]. destruct (currentState f); cbn; congruence.
Qed.

(** ** Phases across iterations *)

Lemma settle_selecting (d : DeviceState) :
  selecting d = true ->
  selecting (settle d) = true /\ selecting (settle (next_phase d)) = true.
Proof. destruct d; cbn; intros H; try discriminate; split; reflexivity. Qed.

Lemma loop_selecting (md : MenuData) (s s' : State) (i : TickInput)
  (tr : list Event) :
  selecting (currentState s) = true ->
  loop md s i = Ok (s', tr) ->
  selecting (currentState s') = true.
Proof.
  intros P H. apply loop_step in H. destruct H as [-> _].
  rewrite front_state_currentState.
  destruct (accepts _ i); apply settle_selecting; exact P.
Qed.

Lemma run_inv (md : MenuData) (s s' : State) (i : TickInput)
  (rest : list TickInput) (tr : list Event) :
  run md s (i :: rest) = Ok (s', tr) ->
  exists s1 tr1 tr2,
    loop md s i = Ok (s1, tr1)
    /\ run md s1 rest = Ok (s', tr2)
    /\ tr = (tr1 ++ tr2)%list.
Proof.
  cbn [run]. intros H.
  destruct (loop md s i) as [[s1 tr1] | |] eqn:L; cbn in H; try discriminate.
  destruct (run md s1 rest) as [[s2 tr2] | |] eqn:R; cbn in H;
    try discriminate.
  injection H as <- <-. exists s1, tr1, tr2. repeat split. exact R.
Qed.

Lemma run_selecting (md : MenuData) (ins : list TickInput) :
  forall (s s' : State) (tr : list Event),
    selecting (currentState s) = true ->
    run md s ins = Ok (s', tr) ->
    selecting (currentState s') = true.
Proof.
  induction ins as [| i rest IH]; intros s s' tr P H.
  - injection H as <- _. exact P.
  - apply run_inv in H. destruct H as (s1 & tr1 & tr2 & L & R & _).
    eapply IH; [| exact R]. eapply loop_selecting; eassumption.
Qed.

Lemma setup_currentState (md : MenuData) (s s0 : State) (oled_ok : bool)
  (samples : list Sample) (statuses : list bool) (tr : list Event) :
  setup md s oled_ok samples statuses = Ok (s0, tr) ->
  currentState s0 = currentState s.
Proof.
  unfold setup, setupWiFi. destruct oled_ok; [| discriminate].
  destruct (wifi_wait statuses); cbn [bind]; try discriminate.
  destruct (displayMenu md _); cbn [bind]; try discriminate.
  intros H. injection H as <- _. cbn. apply isr_run_currentState.
Qed.

(** C10. After [setup], and after any number of completed iterations of
    [loop], the phase is one of the three selecting phases: an iteration that
    enters [STATE_SUBMISSION] runs the confirmation and the reset before it
    ends. *)
Theorem C10_phase_selecting_at_every_iteration_start
  (md : MenuData) (oled_ok : bool) (samples : list Sample)
  (statuses : list bool) (ins : list TickInput)
  (s0 s : State) (tr0 tr : list Event) :
  setup md initial oled_ok samples statuses = Ok (s0, tr0) ->
  run md s0 ins = Ok (s, tr) ->
  selecting (currentState s0) = true /\ selecting (currentState s) = true.
Proof.
  intros S R. apply setup_currentState in S.
  assert (P : selecting (currentState s0) = true) by (rewrite S; reflexivity).
  split; [exact P |]. eapply run_selecting; eassumption.
Qed.

(** The accepted presses of a run move the phase along [next_phase], as long
    as no submission is reached. *)
Lemma iter_next_phase_submission (k : nat) :
  Nat.iter k next_phase STATE_SUBMISSION = STATE_SUBMISSION.
Proof.
  induction k as [| k IH]; [reflexivity |].
  rewrite Nat.iter_succ, IH. reflexivity.
Qed.

Lemma run_counts (md : MenuData) (ins : list TickInput) :
  forall (s s' : State) (tr : list Event),
    run md s ins = Ok (s', tr) ->
    selecting
      (Nat.iter (accepted_presses (lastButtonPressTime s) ins) next_phase
         (currentState s)) = true ->
    currentState s'
    = Nat.iter (accepted_presses (lastButtonPressTime s) ins) next_phase
        (currentState s).
Proof.
  induction ins as [| i rest IH]; intros s s' tr H P.
  - injection H as <- _. reflexivity.
  - apply run_inv in H. destruct H as (s1 & tr1 & tr2 & L & R & _).
    apply loop_step in L. destruct L as [Lc Lt].
    rewrite front_state_currentState in Lc.
    cbn [accepted_presses] in *.
    destruct (accepts (lastButtonPressTime s) i).
    + rewrite Nat.iter_succ_r in P |- *.
      assert (N : next_phase (currentState s) <> STATE_SUBMISSION).
      { intros Q. rewrite Q, iter_next_phase_submission in P. discriminate. }
      assert (E : currentState s1 = next_phase (currentState s))
        by (rewrite Lc; destruct (next_phase (currentState s)); cbn; congruence).
      rewrite <- E, <- Lt in *. apply (IH _ _ _ R P).
    + assert (N : currentState s <> STATE_SUBMISSION).
      { intros Q. rewrite Q, iter_next_phase_submission in P. discriminate. }
      assert (E : currentState s1 = currentState s)
        by (rewrite Lc; destruct (currentState s); cbn; congruence).
      rewrite <- E, <- Lt in *. apply (IH _ _ _ R P).
Qed.

Lemma updateOLED_is_oled (md : MenuData) (s : State) (o : Event) :
  updateOLED md s = Ok o -> is_oled o = true /\ is_telegram o = false.
Proof.
  unfold updateOLED. destruct (currentState s);
    try (intros H; injection H as <-; split; reflexivity).
  destruct (index _ _); cbn; try discriminate.
  intros H; injection H as <-; split; reflexivity.
Qed.

Lemma displayMenu_is_lcd (md : MenuData) (s : State) (e : Event) :
  displayMenu md s = Ok e -> is_lcd e = true /\ is_telegram e = false.
Proof.
  unfold displayMenu. destruct (currentState s);
    try (intros H; injection H as <-; split; reflexivity);
    (destruct (index _ _); cbn; try discriminate;
     intros H; injection H as <-; split; reflexivity).
Qed.

(** The trace of an iteration whose first half ends in [STATE_SUBMISSION]. *)
Lemma loop_submitting_trace (md : MenuData) (s s' : State) (i : TickInput)
  (tr : list Event) :
  loop md s i = Ok (s', tr) ->
  currentState (front_state md s i) = STATE_SUBMISSION ->
  exists lcd msg sd trd,
    message md (front_state md s i) (in_date i) = Ok msg
    /\ Forall (fun e => is_lcd e = true) lcd
    /\ Forall (fun o => exists m, o = OledMessage m) trd
    /\ tr = (lcd ++ [OledIdle; Telegram msg;
                     LcdMenu "Submitted!" "Thank you!"] ++ trd)%list
    /\ s' = reset sd.
Proof.
  intros H P. apply loop_inv in H.
  destruct H as (f & trf & trs & R & S & ->).
  pose proof (render_currentState _ _ _ _ R) as (Rc & _).
  pose proof (render_inv _ _ _ _ R) as (Rs & lcd & o & -> & O & Hl).
  pose proof P as P0. rewrite <- Rc in P.
  destruct (submission_inv _ _ _ _ _ P S) as (msg & sd & trd & M & D & -> & ->).
  exists lcd, msg, sd, trd. repeat split.
  - rewrite <- M. destruct Rs as [-> | ->]; [reflexivity |].
    destruct (front_state md s i); reflexivity.
  - destruct Hl as [(_ & -> & _) | (_ & _ & e & De & ->)]; [constructor |].
    constructor; [| constructor]. apply (displayMenu_is_lcd _ _ _ De).
  - apply dwell_inv in D. destruct D as (? & ? & ? & _ & _ & _ & _ & _ & F).
    eapply Forall_impl; [| exact F]. cbv beta. intros a Ha.
    unfold updateOLED in Ha.
    rewrite isr_run_frame in Ha. cbn in Ha.
    destruct (index _ _) as [m | |]; cbn in Ha; try discriminate.
    injection Ha as <-. now exists m.
  - rewrite <- app_assoc. f_equal.
    unfold updateOLED in O. rewrite P0 in O. injection O as <-.
    reflexivity.
Qed.


(** In [STATE_SUBMISSION] the first half of the iteration always renders:
    the LCD branch is the [default] one and the OLED prints its idle text. *)
Lemma render_submission (md : MenuData) (s : State) :
  currentState s = STATE_SUBMISSION ->
  exists f lcd,
    render md s = Ok (f, (lcd ++ [OledIdle])%list)
    /\ (f = s \/ f = snapshot s).
Proof.
  intros P. unfold render, displayMenu, updateOLED. cbn [snapshot currentState].
  rewrite P. destruct (menu_changed s); cbn [bind].
  - exists (snapshot s), [LcdClear]. split; [reflexivity | now right].
  - exists s, []. split; [reflexivity | now left].
Qed.

(** The submission block returns once a reading reaches the deadline. *)
Lemma submission_returns (md : MenuData) (s : State) (i : TickInput)
  (msg m : string) (before : list DwellStep) (d : DwellStep)
  (after : list DwellStep) :
  currentState s = STATE_SUBMISSION ->
  message md s (in_date i) = Ok msg ->
  index (moodMessages md) (selectedMoodIndex s) = Ok m ->
  in_dwell i = (before ++ d :: after)%list ->
  Forall (fun x => elapsed (in_confirmStart i) x < 3000) before ->
  3000 <= elapsed (in_confirmStart i) d ->
  exists sd,
    submission md s i
    = Ok (reset sd,
          Telegram msg :: LcdMenu "Submitted!" "Thank you!"
            :: repeat (OledMessage m) (List.length before)).
Proof.
  intros P M I D F E. unfold submission, submit_begin. rewrite P, M, D.
  cbn [bind displayMenu currentState set_currentState fst snd].
  erewrite dwell_returns; [| exact F | exact E |].
  - cbn [bind fst snd app]. eexists. reflexivity.
  - unfold updateOLED. cbn [currentState set_currentState selectedMoodIndex].
    rewrite isr_run_frame. cbn [selectedMoodIndex set_encoder].
    rewrite I. reflexivity.
Qed.

(** C5. Starting in [STATE_NAME_SELECTION], a run with at most two accepted
    presses ends in the phase that many steps along; after two, the iteration
    with the third accepted press reaches [STATE_SUBMISSION] in its first
    half and renders it; the submission block of that same iteration then
    hands the message to the sink and moves to [STATE_CONFIRMATION]; and when
    the iteration ends, its trace shows the three in that order and it ends
    back in [STATE_NAME_SELECTION]. *)
Theorem C5_third_press_submits_and_confirms
  (md : MenuData) (s s2 s3 : State) (ins : list TickInput) (i : TickInput)
  (tr2 tr3 : list Event) :
  currentState s = STATE_NAME_SELECTION ->
  run md s ins = Ok (s2, tr2) ->
  (accepted_presses (lastButtonPressTime s) ins <= 2)%nat ->
  currentState s2
  = Nat.iter (accepted_presses (lastButtonPressTime s) ins) next_phase
      STATE_NAME_SELECTION
  /\ (accepted_presses (lastButtonPressTime s) ins = 2%nat ->
      accepts (lastButtonPressTime s2) i = true ->
      currentState s2 = STATE_MOOD_SELECTION
      /\ currentState (front_state md s2 i) = STATE_SUBMISSION
      /\ (exists f lcd,
             loop_front md s2 i = Ok (f, (lcd ++ [OledIdle])%list)
             /\ currentState f = STATE_SUBMISSION
             /\ forall msg,
                 message md f (in_date i) = Ok msg ->
                 exists c,
                   submit_begin md f i
                   = Ok (c, [Telegram msg; LcdMenu "Submitted!" "Thank you!"])
                   /\ currentState c = STATE_CONFIRMATION)
      /\ (loop md s2 i = Ok (s3, tr3) ->
          (exists lcd msg trd,
              message md (front_state md s2 i) (in_date i) = Ok msg
              /\ Forall (fun e => is_lcd e = true) lcd
              /\ Forall (fun o => exists m, o = OledMessage m) trd
              /\ tr3 = (lcd ++ [OledIdle; Telegram msg;
                                LcdMenu "Submitted!" "Thank you!"] ++ trd)%list)
          /\ currentState s3 = STATE_NAME_SELECTION)).
Proof.
  intros P R K.
  assert (C : currentState s2
              = Nat.iter (accepted_presses (lastButtonPressTime s) ins)
                  next_phase STATE_NAME_SELECTION).
  { rewrite <- P. apply (run_counts md ins s s2 tr2 R). rewrite P.
    destruct (accepted_presses (lastButtonPressTime s) ins) as [| [| [| k]]];
      [reflexivity | reflexivity | reflexivity | lia]. }
  split; [exact C |].
  intros K2 A. rewrite K2 in C. cbn in C.
  assert (F : currentState (front_state md s2 i) = STATE_SUBMISSION)
    by (rewrite front_state_currentState, A, C; reflexivity).
  split; [exact C |]. split; [exact F |]. split.
  - destruct (render_submission md _ F) as (f & lcd & Rf & Hf).
    exists f, lcd. split; [exact Rf |].
    assert (Pf : currentState f = STATE_SUBMISSION)
      by (destruct Hf as [-> | ->]; exact F).
    split; [exact Pf |].
    intros msg M. unfold submit_begin. rewrite M.
    cbn [bind displayMenu currentState set_currentState].
    eexists. split; reflexivity.
  - intros L.
    destruct (loop_submitting_trace _ _ _ _ _ L F)
      as (lcd & msg & sd & trd & M & Fl & Fo & T & S).
    split.
    + exists lcd, msg, trd. repeat split; assumption.
    + rewrite S. reflexivity.
Qed.

(** C6. In an iteration that submits: if it ends, some reading of the clock
    in the confirmation loop was 3000 ms or more past [confirmStart], every
    reading before it was short of that, and the iteration ends in
    [STATE_NAME_SELECTION] with the three indices at 0; while every reading
    is short of 3000 ms the iteration does not end; and it does end at the
    first reading that reaches 3000 ms, when the labels and the mood message
    are defined. *)
Theorem C6_confirmation_lasts_3000ms
  (md : MenuData) (s : State) (i : TickInput) :
  currentState (front_state md s i) = STATE_SUBMISSION ->
  (forall (s' : State) (tr : list Event),
      loop md s i = Ok (s', tr) ->
      (exists before d after,
          in_dwell i = (before ++ d :: after)%list
          /\ Forall (fun x => elapsed (in_confirmStart i) x < 3000) before
          /\ 3000 <= elapsed (in_confirmStart i) d)
      /\ currentState s' = STATE_NAME_SELECTION
      /\ selectedNameIndex s' = 0
      /\ selectedClassIndex s' = 0
      /\ selectedMoodIndex s' = 0)
  /\ (Forall (fun x => elapsed (in_confirmStart i) x < 3000) (in_dwell i) ->
      forall r, loop md s i <> Ok r)
  /\ (forall (before : list DwellStep) (d : DwellStep)
        (after : list DwellStep) (msg m : string),
      in_dwell i = (before ++ d :: after)%list ->
      Forall (fun x => elapsed (in_confirmStart i) x < 3000) before ->
      3000 <= elapsed (in_confirmStart i) d ->
      message md (front_state md s i) (in_date i) = Ok msg ->
      index (moodMessages md) (selectedMoodIndex (front_state md s i)) = Ok m ->
      exists s' lcd,
        loop md s i
        = Ok (s', (lcd ++ [OledIdle; Telegram msg;
                           LcdMenu "Submitted!" "Thank you!"]
                     ++ repeat (OledMessage m) (List.length before))%list)
        /\ currentState s' = STATE_NAME_SELECTION).
Proof.
  intros P. split; [| split].
  - intros s' tr L. apply loop_inv in L.
    destruct L as (f & trf & trs & R & S & _).
    apply render_currentState in R. destruct R as (Rc & _).
    rewrite <- Rc in P.
    destruct (submission_inv _ _ _ _ _ P S) as (msg & sd & trd & _ & D & -> & _).
    apply dwell_inv in D.
    destruct D as (before & d & after & E & Fb & Fd & _).
    split; [| repeat split]. exists before, d, after. repeat split; assumption.
  - intros F [s' tr] L. apply loop_inv in L.
    destruct L as (f & trf & trs & R & S & _).
    apply render_currentState in R. destruct R as (Rc & _).
    rewrite <- Rc in P.
    destruct (submission_inv _ _ _ _ _ P S) as (msg & sd & trd & _ & D & _).
    exact (dwell_not_before _ _ _ _ F _ D).
  - intros before d after msg m E Fb Fd M I.
    destruct (render_submission md _ P) as (f & lcd & R & Hf).
    assert (Pf : currentState f = STATE_SUBMISSION)
      by (destruct Hf as [-> | ->]; exact P).
    assert (Mf : message md f (in_date i) = Ok msg)
      by (destruct Hf as [-> | ->]; [exact M |];
          rewrite <- M; destruct (front_state md s i); reflexivity).
    assert (If : index (moodMessages md) (selectedMoodIndex f) = Ok m)
      by (destruct Hf as [-> | ->]; exact I).
    destruct (submission_returns md f i msg m before d after Pf Mf If E Fb Fd)
      as (sd & S).
    exists (reset sd), lcd. unfold loop, loop_front. rewrite R.
    cbn [bind fst snd]. rewrite S. cbn [bind fst snd].
    split; [| reflexivity]. rewrite <- app_assoc. reflexivity.
Qed.

(** Three presses in the scenario of the specification: the third submits
    and the iteration ends back in the first phase. *)
Lemma C5_third_press_witness :
  currentState (state_of (run scenario initial two_presses))
  = STATE_MOOD_SELECTION
  /\ currentState
       (front_state scenario (state_of (run scenario initial two_presses))
          third_press) = STATE_SUBMISSION
  /\ currentState
       (state_of (loop scenario (state_of (run scenario initial two_presses))
                    third_press)) = STATE_NAME_SELECTION.
Proof.
  pose proof (C5_third_press_submits_and_confirms scenario initial
                (state_of (run scenario initial two_presses))
                (state_of (loop scenario
                             (state_of (run scenario initial two_presses))
                             third_press))
                two_presses third_press
                (trace_of (run scenario initial two_presses))
                (trace_of (loop scenario
                             (state_of (run scenario initial two_presses))
                             third_press))
                eq_refl) as H.
  destruct H as [_ H]; [vm_compute; reflexivity | vm_compute; lia |].
  destruct H as (H1 & H2 & _ & H4);
    [vm_compute; reflexivity | vm_compute; reflexivity |].
  destruct H4 as [_ H4]; [vm_compute; reflexivity |].
  repeat split; assumption.
Defined.

Lemma C6_confirmation_witness :
  currentState
    (front_state scenario (state_of (run scenario initial two_presses))
       third_press) = STATE_SUBMISSION
  /\ selectedMoodIndex
       (state_of (loop scenario (state_of (run scenario initial two_presses))
                    third_press)) = 0.
Proof.
  assert (P : currentState
                (front_state scenario
                   (state_of (run scenario initial two_presses)) third_press)
              = STATE_SUBMISSION) by (vm_compute; reflexivity).
  split; [exact P |].
  destruct (C6_confirmation_lasts_3000ms scenario _ _ P) as [H _].
  destruct (H (state_of (loop scenario
                           (state_of (run scenario initial two_presses))
                           third_press))
              (trace_of (loop scenario
                           (state_of (run scenario initial two_presses))
                           third_press)))
    as (_ & _ & _ & _ & M); [vm_compute; reflexivity | exact M].
Defined.

Lemma C10_phase_selecting_witness :
  selecting
    (currentState
       (state_of (run scenario
                    (state_of (setup scenario initial true [] [false; true]))
                    (two_presses ++ [third_press])))) = true.
Proof.
  refine (proj2 (C10_phase_selecting_at_every_iteration_start scenario true []
                   [false; true] (two_presses ++ [third_press])
                   (state_of (setup scenario initial true [] [false; true]))
                   _
                   (trace_of (setup scenario initial true [] [false; true]))
                   (trace_of
                      (run scenario
                         (state_of
                            (setup scenario initial true [] [false; true]))
                         (two_presses ++ [third_press])))
                   _ _)); vm_compute; reflexivity.
Defined.

(** ** The message *)

Lemma string_app_assoc (a b c : string) :
  ((a ++ b) ++ c)%string = (a ++ (b ++ c))%string.
Proof. induction a as [| x a IH]; cbn; [| rewrite IH]; reflexivity. Qed.

Lemma filter_none {A : Type} (f : A -> bool) (l : list A) :
  Forall (fun x => f x = false) l -> filter f l = [].
Proof.
  induction 1 as [| x l Hx _ IH]; cbn; [| rewrite Hx]; auto.
Qed.

(** C7. The message is the four lines Name, Class, Mood, Date, in that
    order, separated by newlines, each label read from its array at the
    selected index; an iteration that submits hands exactly that one message
    to the sink. *)
Theorem C7_message_four_lines (md : MenuData) :
  (forall (s : State) (date n c m : string),
      index (names md) (selectedNameIndex s) = Ok n ->
      index (classes md) (selectedClassIndex s) = Ok c ->
      index (moods md) (selectedMoodIndex s) = Ok m ->
      message md s date = Ok (four_lines n c m date))
  /\ (forall (s s' : State) (i : TickInput) (tr : list Event),
      loop md s i = Ok (s', tr) ->
      currentState (front_state md s i) = STATE_SUBMISSION ->
      exists n c m,
        index (names md) (selectedNameIndex (front_state md s i)) = Ok n
        /\ index (classes md) (selectedClassIndex (front_state md s i)) = Ok c
        /\ index (moods md) (selectedMoodIndex (front_state md s i)) = Ok m
        /\ filter is_telegram tr = [Telegram (four_lines n c m (in_date i))]).
Proof.
  assert (M : forall (s : State) (date n c m : string),
             index (names md) (selectedNameIndex s) = Ok n ->
             index (classes md) (selectedClassIndex s) = Ok c ->
             index (moods md) (selectedMoodIndex s) = Ok m ->
             message md s date = Ok (four_lines n c m date)).
  { intros s date n c m Hn Hc Hm. unfold message. rewrite Hn, Hc, Hm.
    cbn [bind]. f_equal. unfold four_lines. cbn [String.concat].
    repeat rewrite string_app_assoc. reflexivity. }
  split; [exact M |].
  intros s s' i tr L P.
  destruct (loop_submitting_trace _ _ _ _ _ L P)
    as (lcd & msg & sd & trd & Hm & Fl & Fo & -> & _).
  unfold message in Hm.
  destruct (index (names md) _) as [n | |] eqn:En; cbn [bind] in Hm;
    try discriminate.
  destruct (index (classes md) _) as [c | |] eqn:Ec; cbn [bind] in Hm;
    try discriminate.
  destruct (index (moods md) _) as [m | |] eqn:Em; cbn [bind] in Hm;
    try discriminate.
  exists n, c, m. repeat split.
  pose proof (M (front_state md s i) (in_date i) n c m En Ec Em) as M'.
  unfold message in M'. rewrite En, Ec, Em in M'. cbn [bind] in M'.
  rewrite M' in Hm. injection Hm as <-.
  rewrite filter_app, filter_app. rewrite (filter_none is_telegram lcd).
  - rewrite (filter_none is_telegram trd); [reflexivity |].
    eapply Forall_impl; [| exact Fo]. intros a [x ->]. reflexivity.
  - eapply Forall_impl; [| exact Fl]. intros a Ha. destruct a; try reflexivity.
    discriminate.
Qed.

(** The end-to-end scenario: three presses without rotation. *)
Lemma C7_message_witness :
  filter is_telegram
    (trace_of (loop scenario (state_of (run scenario initial two_presses))
                 third_press))
  = [Telegram (four_lines "A" "X" "Happy" "01/01/2025")].
Proof.
  destruct (C7_message_four_lines scenario) as [_ H].
  destruct (H (state_of (run scenario initial two_presses))
              (state_of (loop scenario
                           (state_of (run scenario initial two_presses))
                           third_press))
              third_press
              (trace_of (loop scenario
                           (state_of (run scenario initial two_presses))
                           third_press)))
    as (n & c & m & Hn & Hc & Hm & F);
    [vm_compute; reflexivity | vm_compute; reflexivity |].
  vm_compute in Hn, Hc, Hm.
  injection Hn as <-. injection Hc as <-. injection Hm as <-. exact F.
Defined.

(** ** Input that arrives during submission and confirmation *)

Lemma forget_fields (a b : State) :
  forget_encoder a = forget_encoder b ->
  currentState a = currentState b
  /\ selectedNameIndex a = selectedNameIndex b
  /\ selectedClassIndex a = selectedClassIndex b
  /\ selectedMoodIndex a = selectedMoodIndex b
  /\ lastButtonPressTime a = lastButtonPressTime b
  /\ prevState a = prevState b
  /\ prevNameIndex a = prevNameIndex b
  /\ prevClassIndex a = prevClassIndex b
  /\ prevMoodIndex a = prevMoodIndex b.
Proof.
  destruct a, b. unfold forget_encoder, set_encoder. cbn.
  intros H. injection H as -> -> -> -> -> -> -> -> ->. repeat split.
Qed.

Lemma menu_changed_forget (s : State) :
  menu_changed s = menu_changed (forget_encoder s).
Proof. destruct s; reflexivity. Qed.

Lemma rotate_forget (md : MenuData) (s : State) (pos : Z) :
  forget_encoder (rotate md s pos) = rotate md (forget_encoder s) pos.
Proof.
  unfold rotate. destruct (pos =? 0); [reflexivity |].
  destruct s as [cs ni ci mi ep le lb ps pn pc pm]. destruct cs; reflexivity.
Qed.

Lemma press_forget (s : State) :
  forget_encoder (press s) = press (forget_encoder s).
Proof. destruct s as [cs ni ci mi ep le lb ps pn pc pm]. destruct cs; reflexivity. Qed.

(** The first half of an iteration is the rotation by the drained delta
    followed by the button step; the interrupt adds only to its own two
    variables. *)
Lemma front_state_shape (md : MenuData) (s : State) (i : TickInput) :
  forget_encoder (front_state md s i)
  = forget_encoder
      (if accepts (lastButtonPressTime s) i
       then press (set_lastButtonPressTime
                     (rotate md s (encoderPos (isr_run s (in_isr_pre i))))
                     (in_millis i))
       else rotate md s (encoderPos (isr_run s (in_isr_pre i)))).
Proof.
  unfold front_state, drain, accepts, isButtonPressed.
  rewrite rotate_lastButtonPressTime. cbn [lastButtonPressTime set_encoder].
  rewrite isr_run_lastButtonPressTime.
  set (pos := encoderPos (isr_run s (in_isr_pre i))).
  assert (R : forget_encoder
                (rotate md (set_encoder (isr_run s (in_isr_pre i)) 0
                              (lastEncoded (isr_run s (in_isr_pre i)))) pos)
              = forget_encoder (rotate md s pos)).
  { rewrite !rotate_forget. f_equal.
    rewrite (isr_run_frame (in_isr_pre i) s). reflexivity. }
  destruct (in_button_low i); cbn [andb];
    [| rewrite isr_run_forget; exact R].
  destruct (200 <? _); rewrite isr_run_forget; [| exact R].
  rewrite !press_forget. f_equal.
  destruct (rotate md (set_encoder _ 0 _) pos) eqn:A,
    (rotate md s pos) eqn:B.
  unfold forget_encoder, set_encoder, set_lastButtonPressTime in *.
  cbn in *. injection R as -> -> -> -> -> -> -> -> ->. reflexivity.
Qed.

Lemma same_outcome_refl (r : result (State * list Event)) : same_outcome r r.
Proof. destruct r as [[s tr] | |]; cbn; auto. Qed.

Lemma reset_forget (s : State) :
  forget_encoder (reset s) = reset (forget_encoder s).
Proof. destruct s; reflexivity. Qed.

Lemma set_currentState_forget (s : State) (d : DeviceState) :
  forget_encoder (set_currentState s d) = set_currentState (forget_encoder s) d.
Proof. destruct s; reflexivity. Qed.

Lemma dwell_same_clock (md : MenuData) (confirmStart : Z)
  (steps : list DwellStep) :
  forall (steps' : list DwellStep) (s s' : State),
    map dw_millis steps = map dw_millis steps' ->
    forget_encoder s = forget_encoder s' ->
    same_outcome (dwell md s confirmStart steps)
      (dwell md s' confirmStart steps').
Proof.
  induction steps as [| d rest IH]; intros [| d' rest'] s s' Hm Hs;
    try discriminate; [exact I |].
  cbn [map] in Hm. injection Hm as Hd Hr. cbn [dwell]. rewrite <- Hd.
  assert (Hs1 : forget_encoder (isr_run s (dw_isr d))
                = forget_encoder (isr_run s' (dw_isr d')))
    by (rewrite !isr_run_forget; exact Hs).
  destruct (wrap_u32 (dw_millis d - confirmStart) <? 3000).
  - rewrite (updateOLED_forget md (isr_run s (dw_isr d))), Hs1,
      <- updateOLED_forget.
    destruct (updateOLED md (isr_run s' (dw_isr d'))) as [o | |];
      cbn [bind]; try exact I.
    specialize (IH rest' _ _ Hr Hs1).
    destruct (dwell md (isr_run s (dw_isr d)) confirmStart rest)
      as [[a tr] | |];
      destruct (dwell md (isr_run s' (dw_isr d')) confirmStart rest')
        as [[a' tr'] | |]; cbn in IH |- *; try contradiction; try exact I.
    destruct IH as [-> ->]. split; reflexivity.
  - cbn. split; [exact Hs1 | reflexivity].
Qed.

(** C2, as stated, fails. The two inputs below differ only in what arrives
    during the confirmation loop (one forward step of the knob, and the
    button held, in the first pass). The iteration that submits ends the same
    way in both, except that the counter of the decoder keeps the step; the
    next iteration, which receives no input at all, drains it and moves the
    name index from 0 to 1. *)
Lemma C2_turn_during_confirmation_moves_next_selection :
  same_outside_submission third_press third_press_turned
  /\ run scenario (state_of (run scenario initial two_presses))
       [third_press; idle_tick []]
     = Ok (state_of
             (run scenario (state_of (run scenario initial two_presses))
                [third_press; idle_tick []]),
           trace_of
             (run scenario (state_of (run scenario initial two_presses))
                [third_press; idle_tick []]))
  /\ selectedNameIndex
       (state_of
          (run scenario (state_of (run scenario initial two_presses))
             [third_press; idle_tick []])) = 0
  /\ run scenario (state_of (run scenario initial two_presses))
       [third_press_turned; idle_tick []]
     = Ok (state_of
             (run scenario (state_of (run scenario initial two_presses))
                [third_press_turned; idle_tick []]),
           trace_of
             (run scenario (state_of (run scenario initial two_presses))
                [third_press_turned; idle_tick []]))
  /\ selectedNameIndex
       (state_of
          (run scenario (state_of (run scenario initial two_presses))
             [third_press_turned; idle_tick []])) = 1
  /\ encoderPos
       (state_of
          (loop scenario (state_of (run scenario initial two_presses))
             third_press_turned)) = 1.
Proof.
  split; [unfold same_outside_submission; cbn; repeat split |].
  repeat (split; [vm_compute; reflexivity |]). vm_compute. reflexivity.
Qed.

Lemma snapshot_forget (s : State) :
  forget_encoder (snapshot s) = snapshot (forget_encoder s).
Proof. destruct s; reflexivity. Qed.

Lemma render_same (md : MenuData) (a b : State) :
  forget_encoder a = forget_encoder b ->
  same_outcome (render md a) (render md b).
Proof.
  intros H. unfold render.
  rewrite (menu_changed_forget a), (displayMenu_forget md a),
    (updateOLED_forget md a), (updateOLED_forget md (snapshot a)),
    (snapshot_forget a), H,
    <- (snapshot_forget b), <- (updateOLED_forget md (snapshot b)),
    <- (updateOLED_forget md b), <- (displayMenu_forget md b),
    <- (menu_changed_forget b).
  destruct (menu_changed b).
  - destruct (displayMenu md b); cbn [bind]; try exact I.
    destruct (updateOLED md (snapshot b)); cbn [bind]; try exact I.
    cbn. split; [| reflexivity].
    rewrite !snapshot_forget, H. reflexivity.
  - destruct (updateOLED md b); cbn [bind]; try exact I.
    cbn. split; [exact H | reflexivity].
Qed.

Lemma submission_same (md : MenuData) (a b : State) (i i' : TickInput) :
  forget_encoder a = forget_encoder b ->
  in_date i = in_date i' ->
  in_confirmStart i = in_confirmStart i' ->
  map dw_millis (in_dwell i) = map dw_millis (in_dwell i') ->
  same_outcome (submission md a i) (submission md b i').
Proof.
  intros H H5 H6 H7. unfold submission.
  destruct (forget_fields _ _ H) as (<- & _).
  destruct (currentState a);
    cbn [bind fst snd]; try (split; [exact H | reflexivity]).
  unfold submit_begin.
  rewrite (message_forget md a), H, <- (message_forget md b), <- H5, <- H6.
  destruct (message md b (in_date i)) as [msg | |]; cbn [bind]; try exact I.
  cbn [displayMenu currentState set_currentState bind fst snd].
  pose proof (dwell_same_clock md (in_confirmStart i) (in_dwell i) (in_dwell i')
                (set_currentState (isr_run a (in_isr_submit i))
                   STATE_CONFIRMATION)
                (set_currentState (isr_run b (in_isr_submit i'))
                   STATE_CONFIRMATION) H7) as D.
  cbn [set_currentState] in D.
  match type of D with ?A -> _ => assert (G : A) end.
  { rewrite (isr_run_frame (in_isr_submit i) a),
      (isr_run_frame (in_isr_submit i') b).
    destruct (forget_fields _ _ H) as (_ & Fn & Fc & Fm & Ft & Fp & Fa & Fb & Fd).
    unfold forget_encoder, set_currentState, set_encoder. cbn.
    rewrite Fn, Fc, Fm, Ft, Fp, Fa, Fb, Fd. reflexivity. }
  specialize (D G).
  match type of D with same_outcome ?x ?y =>
    destruct x as [[a1 t1] | |]; destruct y as [[a2 t2] | |] end;
    cbn in D |- *; try contradiction; try exact I.
  destruct D as [D1 ->]. split; [| reflexivity].
  rewrite !reset_forget. unfold forget_encoder in *. rewrite D1. reflexivity.
Qed.

(** The interrupt reads and writes its own two variables only. *)
Lemma isr_run_same_encoder (l : list Sample) :
  forall a b, same_encoder a b -> same_encoder (isr_run a l) (isr_run b l).
Proof.
  induction l as [| x l IH]; intros a b [Hp Hl]; [split; assumption |].
  unfold isr_run in *. cbn [fold_left]. apply IH. split.
  - rewrite !updateEncoder_encoderPos, Hp, Hl. reflexivity.
  - rewrite !updateEncoder_lastEncoded. reflexivity.
Qed.

Lemma rotate_same_encoder (md : MenuData) (s : State) (pos : Z) :
  same_encoder (rotate md s pos) s.
Proof.
  unfold rotate. destruct (pos =? 0); [split; reflexivity |].
  destruct (currentState s); split; reflexivity.
Qed.

Lemma press_same_encoder (s : State) : same_encoder (press s) s.
Proof. unfold press. destruct (currentState s); split; reflexivity. Qed.

(** The variables of the interrupt at the end of the first half of an
    iteration: the drained state with the later samples counted in. *)
Lemma front_state_same_encoder (md : MenuData) (s : State) (i : TickInput) :
  same_encoder (front_state md s i)
    (isr_run (snd (drain (isr_run s (in_isr_pre i)))) (in_isr_front i)).
Proof.
  unfold front_state, drain, isButtonPressed. cbn [snd].
  set (d := set_encoder (isr_run s (in_isr_pre i)) 0
              (lastEncoded (isr_run s (in_isr_pre i)))).
  set (pos := encoderPos (isr_run s (in_isr_pre i))).
  pose proof (rotate_same_encoder md d pos) as R.
  destruct (in_button_low i); [| apply isr_run_same_encoder; exact R].
  destruct (200 <? _); apply isr_run_same_encoder; [| exact R].
  destruct (press_same_encoder
              (set_lastButtonPressTime (rotate md d pos) (in_millis i)))
    as [P1 P2].
  destruct R as [R1 R2]. split.
  - rewrite P1. exact R1.
  - rewrite P2. exact R2.
Qed.

(** C2, amended. The encoder samples serviced after the drain of an
    iteration (among them all those that arrive while the phase is
    [STATE_SUBMISSION] or [STATE_CONFIRMATION]) and the button levels present
    during the confirmation loop change nothing of that iteration but the two
    variables of the decoder: it ends, hangs or is undefined alike, with the
    same trace and the same phase, indices, debounce time and tracking
    variables. They are not discarded: a submitting iteration ends in
    [STATE_NAME_SELECTION] with the three indices at 0 and with the counter
    of the decoder holding what the interrupt counted from all the samples
    serviced since the drain, the reset leaving it as it is. *)
Theorem C2_submission_input_reaches_only_the_decoder
  (md : MenuData) (s : State) (i : TickInput) :
  (forall i' : TickInput,
      same_but_late_input i i' ->
      same_outcome (loop md s i) (loop md s i'))
  /\ (forall (s' : State) (tr : list Event),
      loop md s i = Ok (s', tr) ->
      currentState (front_state md s i) = STATE_SUBMISSION ->
      currentState s' = STATE_NAME_SELECTION
      /\ selectedNameIndex s' = 0
      /\ selectedClassIndex s' = 0
      /\ selectedMoodIndex s' = 0
      /\ exists before d after,
          in_dwell i = (before ++ d :: after)%list
          /\ Forall (fun x => elapsed (in_confirmStart i) x < 3000) before
          /\ 3000 <= elapsed (in_confirmStart i) d
          /\ same_encoder s'
               (isr_run (snd (drain (isr_run s (in_isr_pre i))))
                  (late_samples i (before ++ [d])))).
Proof.
  split.
  - intros i' (H1 & H2 & H3 & H5 & H6 & H7).
    unfold loop, loop_front.
    assert (F : forget_encoder (front_state md s i)
                = forget_encoder (front_state md s i')).
    { rewrite !front_state_shape. unfold accepts.
      rewrite H1, H2, H3. reflexivity. }
    pose proof (render_same md _ _ F) as R.
    destruct (render md (front_state md s i)) as [[f trf] | |];
      destruct (render md (front_state md s i')) as [[f' trf'] | |];
      cbn in R; try contradiction; cbn [bind fst snd]; try exact I.
    destruct R as [Rf ->].
    pose proof (submission_same md f f' i i' Rf H5 H6 H7) as S.
    destruct (submission md f i) as [[a1 t1] | |];
      destruct (submission md f' i') as [[a2 t2] | |];
      cbn in S |- *; try contradiction; try exact I.
    destruct S as [S1 ->]. split; [exact S1 | reflexivity].
  - intros s' tr L P. apply loop_inv in L.
    destruct L as (f & trf & trs & R & S & _).
    apply render_currentState in R.
    destruct R as (Rc & _ & _ & _ & _ & Rp & Rl).
    rewrite <- Rc in P.
    destruct (submission_inv _ _ _ _ _ P S) as (msg & sd & trd & _ & D & -> & _).
    apply dwell_inv in D.
    destruct D as (before & d & after & E & Fb & Fd & -> & _).
    split; [reflexivity |]. split; [reflexivity |].
    split; [reflexivity |]. split; [reflexivity |].
    exists before, d, after.
    split; [exact E |]. split; [exact Fb |]. split; [exact Fd |].
    unfold late_samples. rewrite !isr_run_app.
    change (same_encoder
              (isr_run (set_currentState (isr_run f (in_isr_submit i))
                          STATE_CONFIRMATION)
                 (List.concat (map dw_isr (before ++ [d]))))
              (isr_run
                 (isr_run
                    (isr_run (snd (drain (isr_run s (in_isr_pre i))))
                       (in_isr_front i)) (in_isr_submit i))
                 (List.concat (map dw_isr (before ++ [d]))))).
    apply isr_run_same_encoder.
    assert (G : same_encoder (isr_run f (in_isr_submit i))
                  (isr_run
                     (isr_run (snd (drain (isr_run s (in_isr_pre i))))
                        (in_isr_front i)) (in_isr_submit i))).
    { apply isr_run_same_encoder.
      destruct (front_state_same_encoder md s i) as [F1 F2].
      split; [rewrite Rp; exact F1 | rewrite Rl; exact F2]. }
    exact G.
Qed.

(** The knob turned between the button step and the submission block: the
    iteration ends the same way, the decoder apart, and its counter keeps the
    step. *)
Lemma C2_submission_input_witness :
  same_outcome
    (loop scenario (state_of (run scenario initial two_presses)) third_press)
    (loop scenario (state_of (run scenario initial two_presses))
       third_press_early_turn)
  /\ encoderPos
       (state_of
          (loop scenario (state_of (run scenario initial two_presses))
             third_press_early_turn)) = 1.
Proof.
  destruct (C2_submission_input_reaches_only_the_decoder scenario
              (state_of (run scenario initial two_presses))
              third_press) as [A _].
  destruct (C2_submission_input_reaches_only_the_decoder scenario
              (state_of (run scenario initial two_presses))
              third_press_early_turn) as [_ B].
  split.
  - apply A. unfold same_but_late_input. cbn. repeat split.
  - destruct (B (state_of
                   (loop scenario
                      (state_of (run scenario initial two_presses))
                      third_press_early_turn))
                (trace_of
                   (loop scenario
                      (state_of (run scenario initial two_presses))
                      third_press_early_turn)))
      as (_ & _ & _ & _ & before & d & after & E & Fb & Fd & [Hp _]);
      [vm_compute; reflexivity | vm_compute; reflexivity |].
    rewrite Hp.
    assert (Q : before = [pass [] false 2000] /\ d = pass [] false 5000).
    { destruct before as [| b1 [| b2 before]].
      - cbn in E. injection E as <- _. vm_compute in Fd. contradiction Fd.
        reflexivity.
      - cbn in E. injection E as <- <- _. split; reflexivity.
      - cbn in E. injection E as <- <- E.
        inversion Fb as [| ? ? _ Fb']. inversion Fb' as [| ? ? Q1 _].
        vm_compute in Q1. discriminate Q1. }
    destruct Q as [-> ->]. vm_compute. reflexivity.
Defined.

(** ** Start-up *)

Lemma wifi_wait_inv (statuses : list bool) :
  (wifi_wait statuses = Ok tt <-> In true statuses)
  /\ (wifi_wait statuses = Hang <-> ~ In true statuses).
Proof.
  induction statuses as [| c rest [IH1 IH2]]; cbn.
  - repeat split; try discriminate; tauto.
  - destruct c.
    + repeat split; try discriminate; tauto.
    + rewrite IH1, IH2. repeat split; intros H; try tauto.
      * destruct H as [H | H]; [discriminate | exact H].
      * intros [Q | Q]; [discriminate | tauto].
Qed.

Lemma index_head (a : list string) :
  (exists l, index a 0 = Ok l) <-> a <> [].
Proof.
  destruct a as [| x a]; cbn.
  - split; [intros [l H]; discriminate | congruence].
  - split; [discriminate | intros _; now exists x].
Qed.

(** What [setup] has done when it returns. *)
Lemma setup_inv (md : MenuData) (oled_ok : bool) (samples : list Sample)
  (statuses : list bool) (s0 : State) (tr : list Event) :
  setup md initial oled_ok samples statuses = Ok (s0, tr) ->
  oled_ok = true /\ In true statuses
  /\ forget_encoder s0 = initial
  /\ exists l, index (names md) 0 = Ok l
               /\ tr = (OledClear :: startupAnimation
                        ++ [OledWiFi false; OledWiFi true;
                            LcdMenu "Select Name:" l; RoboEyes])%list.
Proof.
  unfold setup, setupWiFi. intros H. destruct oled_ok; [| discriminate].
  destruct (wifi_wait statuses) as [[] | |] eqn:W; cbn [bind] in H;
    try discriminate.
  apply (proj1 (wifi_wait_inv statuses)) in W.
  unfold displayMenu in H. cbn [currentState selectedNameIndex] in H.
  rewrite isr_run_currentState in H. cbn [currentState initial] in H.
  rewrite (isr_run_frame samples initial) in H.
  cbn [selectedNameIndex set_encoder initial] in H.
  destruct (index (names md) 0) as [l | |] eqn:I; cbn [bind] in H;
    try discriminate.
  injection H as <- <-. repeat split; try assumption. now exists l.
Qed.

(** When [setup] returns. *)
Lemma setup_returns (md : MenuData) (samples : list Sample)
  (statuses : list bool) (l : string) :
  In true statuses ->
  index (names md) 0 = Ok l ->
  exists s0,
    setup md initial true samples statuses
    = Ok (s0, (OledClear :: startupAnimation
                 ++ [OledWiFi false; OledWiFi true;
                     LcdMenu "Select Name:" l; RoboEyes])%list)
    /\ forget_encoder s0 = initial.
Proof.
  intros W I. apply (proj1 (wifi_wait_inv statuses)) in W.
  unfold setup, setupWiFi. rewrite W. cbn [bind].
  unfold displayMenu. cbn [currentState selectedNameIndex].
  rewrite isr_run_currentState. cbn [currentState initial].
  rewrite (isr_run_frame samples initial).
  cbn [selectedNameIndex set_encoder initial]. rewrite I. cbn [bind].
  eexists. split; reflexivity.
Qed.

Lemma setup_waits (md : MenuData) (s : State) (oled_ok : bool)
  (samples : list Sample) (statuses : list bool) :
  ~ In true statuses -> setup md s oled_ok samples statuses = Hang.
Proof.
  intros N. unfold setup, setupWiFi. destruct oled_ok; [| reflexivity].
  apply (proj2 (wifi_wait_inv statuses)) in N. rewrite N. reflexivity.
Qed.

(** C8, as stated, fails. With two moods and one mood message, [setup]
    proceeds as usual and the loop runs; nothing compares the two lengths. *)
Lemma C8_setup_proceeds_with_mismatched_lists :
  List.length (moodMessages mismatched) <> List.length (moods mismatched)
  /\ setup mismatched initial true [] [false; true]
     = Ok (initial,
           [OledClear; LcdLine "Welcome!"; LcdLine "Loading.";
            LcdLine "Loading.."; LcdLine "Loading...";
            LcdMenu "Student Emotion" "Recorder"; LcdLine "By JET"; LcdClear;
            OledWiFi false; OledWiFi true;
            LcdMenu "Select Name:" "A"; RoboEyes])
  /\ run mismatched initial two_presses
     = Ok (state_of (run mismatched initial two_presses),
           trace_of (run mismatched initial two_presses))
  /\ currentState (state_of (run mismatched initial two_presses))
     = STATE_MOOD_SELECTION.
Proof.
  split; [vm_compute; discriminate |].
  repeat (split; [vm_compute; reflexivity |]). vm_compute. reflexivity.
Qed.

(** C8, amended. [setup] does not read the mood messages: its outcome is the
    same whatever that list is. From the initial globals it returns, so that
    [loop] starts in the first phase with the initial indices, exactly when
    the OLED started and some poll of the WiFi status read connected (the
    list of names not being empty, as no array of the sketch can be); it
    stops for ever when the OLED fails to start and waits, without time-out,
    while no poll reads connected. The two lists of the sketch both have
    five entries. *)
Theorem C8_setup_does_not_compare_list_lengths :
  (forall (md : MenuData) (mm : list string) (s : State) (oled_ok : bool)
      (samples : list Sample) (statuses : list bool),
      setup (with_moodMessages md mm) s oled_ok samples statuses
      = setup md s oled_ok samples statuses)
  /\ (forall (md : MenuData) (s : State) (samples : list Sample)
        (statuses : list bool),
         setup md s false samples statuses = Hang)
  /\ (forall (md : MenuData) (s : State) (oled_ok : bool)
        (samples : list Sample) (statuses : list bool),
         ~ In true statuses ->
         setup md s oled_ok samples statuses = Hang)
  /\ (forall (md : MenuData) (oled_ok : bool) (samples : list Sample)
        (statuses : list bool),
         (exists s0 tr,
             setup md initial oled_ok samples statuses = Ok (s0, tr))
         <-> oled_ok = true /\ In true statuses /\ names md <> [])
  /\ (forall (md : MenuData) (oled_ok : bool) (samples : list Sample)
        (statuses : list bool) (s0 : State) (tr : list Event),
         setup md initial oled_ok samples statuses = Ok (s0, tr) ->
         forget_encoder s0 = initial
         /\ currentState s0 = STATE_NAME_SELECTION)
  /\ List.length (moodMessages sketch) = 5%nat
  /\ List.length (moods sketch) = 5%nat.
Proof.
  split; [| split; [| split; [| split; [| split; [| split]]]]].
  - intros md mm s oled_ok samples statuses. unfold setup.
    destruct oled_ok; [| reflexivity].
    destruct (setupWiFi statuses); cbn [bind]; reflexivity.
  - reflexivity.
  - intros md s oled_ok samples statuses. apply setup_waits.
  - intros md oled_ok samples statuses. split.
    + intros (s0 & tr & H). apply setup_inv in H.
      destruct H as (O & W & _ & l & I & _).
      repeat split; try assumption. apply index_head. now exists l.
    + intros (-> & W & N). apply index_head in N. destruct N as [l I].
      destruct (setup_returns md samples statuses l W I) as (s0 & H & _).
      eauto.
  - intros md oled_ok samples statuses s0 tr H.
    pose proof (setup_currentState _ _ _ _ _ _ _ H) as C.
    apply setup_inv in H. destruct H as (_ & _ & F & _).
    split; [exact F | exact C].
  - reflexivity.
  - reflexivity.
Qed.

(** With one mood message missing, [setup] returns all the same. *)
Lemma C8_setup_witness :
  exists s0 tr, setup mismatched initial true [] [false; true] = Ok (s0, tr).
Proof.
  destruct C8_setup_does_not_compare_list_lengths as (_ & _ & _ & H & _).
  apply (proj2 (H mismatched true [] [false; true])).
  split; [reflexivity |]. split; [right; left; reflexivity | discriminate].
Defined.

(** ** Redraws *)

(** C9, as stated, fails. In mood selection with nothing changed since the
    last drawing and no input, the iteration leaves the state as it was and
    still redraws the mood icon; and the confirmation loop redraws the
    message at every pass. *)
Lemma C9_oled_redrawn_when_nothing_changed :
  loop sketch mood_idle (idle_tick []) = Ok (mood_idle, [OledEmotion 0])
  /\ run sketch mood_idle [idle_tick []; idle_tick []]
     = Ok (mood_idle, [OledEmotion 0; OledEmotion 0])
  /\ filter is_oled
       (trace_of (loop scenario (state_of (run scenario initial two_presses))
                    long_confirmation))
     = [OledIdle; OledMessage "m0"; OledMessage "m0"; OledMessage "m0"].
Proof.
  repeat (split; [vm_compute; reflexivity |]). vm_compute. reflexivity.
Qed.

(** C9, amended. The first half of every iteration ends with one redraw of
    the OLED, in every phase and whether or not anything changed; only the
    LCD is redrawn on change (it comes first in the trace, and only when the
    guard [menu_changed] holds). The confirmation loop redraws the OLED once
    on every pass, that is, once for each reading of the clock before the
    first one that has reached 3000 ms: when it ends, its trace is that many
    redraws, all of them the redraw of the state it started in; and it does
    end so at that reading, when the OLED routine is defined. *)
Theorem C9_oled_redrawn_every_iteration (md : MenuData) :
  (forall (s f : State) (i : TickInput) (tr : list Event),
      loop_front md s i = Ok (f, tr) ->
      exists lcd o,
        tr = (lcd ++ [o])%list
        /\ is_oled o = true
        /\ Forall (fun e => is_lcd e = true) lcd
        /\ List.length lcd
           = (if menu_changed (front_state md s i) then 1 else 0)%nat)
  /\ (forall (s s' : State) (confirmStart : Z) (steps : list DwellStep)
        (tr : list Event),
      dwell md s confirmStart steps = Ok (s', tr) ->
      exists before d after,
        steps = (before ++ d :: after)%list
        /\ Forall (fun x => elapsed confirmStart x < 3000) before
        /\ 3000 <= elapsed confirmStart d
        /\ List.length tr = List.length before
        /\ Forall (fun o => is_oled o = true /\ updateOLED md s = Ok o) tr)
  /\ (forall (s : State) (confirmStart : Z) (o : Event)
        (before : list DwellStep) (d : DwellStep) (after : list DwellStep),
      Forall (fun x => elapsed confirmStart x < 3000) before ->
      3000 <= elapsed confirmStart d ->
      updateOLED md s = Ok o ->
      exists s',
        dwell md s confirmStart (before ++ d :: after)
        = Ok (s', repeat o (List.length before))
        /\ is_oled o = true).
Proof.
  split; [| split].
  - intros s f i tr H. unfold loop_front in H. apply render_inv in H.
    destruct H as (_ & lcd & o & -> & O & Hl).
    exists lcd, o. split; [reflexivity |].
    split; [apply (updateOLED_is_oled _ _ _ O) |].
    destruct Hl as [(-> & -> & _) | (-> & _ & e & De & ->)].
    + split; [constructor | reflexivity].
    + split; [| reflexivity].
      constructor; [apply (displayMenu_is_lcd _ _ _ De) | constructor].
  - intros s s' confirmStart steps tr H. apply dwell_inv in H.
    destruct H as (before & d & after & E & Fb & Fd & _ & L & Fo).
    exists before, d, after.
    split; [exact E |]. split; [exact Fb |]. split; [exact Fd |].
    split; [exact L |].
    eapply Forall_impl; [| exact Fo]. intros a Ha.
    split; [apply (updateOLED_is_oled _ _ _ Ha) | exact Ha].
  - intros s confirmStart o before d after Fb Fd O.
    eexists. split; [apply dwell_returns; assumption |].
    apply (updateOLED_is_oled _ _ _ O).
Qed.

(** Mood selection with nothing changed, and a confirmation loop of three
    passes before the deadline: one redraw, and three. *)
Lemma C9_oled_redrawn_witness :
  (exists lcd o,
      [OledEmotion 0] = (lcd ++ [o])%list
      /\ is_oled o = true
      /\ Forall (fun e => is_lcd e = true) lcd
      /\ List.length lcd
         = (if menu_changed (front_state sketch mood_idle (idle_tick []))
            then 1 else 0)%nat)
  /\ (exists s',
        dwell sketch (set_currentState initial STATE_CONFIRMATION) 1850
          ([pass [] false 2000; pass [] false 2001; pass [] false 2002]
           ++ pass [] false 5000 :: [])
        = Ok (s', repeat (OledMessage "yes! Please stay happy !") 3)
        /\ is_oled (OledMessage "yes! Please stay happy !") = true).
Proof.
  destruct (C9_oled_redrawn_every_iteration sketch) as (H1 & _ & H3).
  split.
  - apply (H1 mood_idle mood_idle (idle_tick []) [OledEmotion 0]).
    vm_compute. reflexivity.
  - apply (H3 (set_currentState initial STATE_CONFIRMATION) 1850
             (OledMessage "yes! Please stay happy !")
             [pass [] false 2000; pass [] false 2001; pass [] false 2002]
             (pass [] false 5000) []).
    + repeat constructor.
    + vm_compute. discriminate.
    + reflexivity.
Defined.

(** * Further properties *)

(** ** The decoder on successive samples *)

Ltac eval_codes :=
  repeat match goal with
    | |- context [forward_code ?c] =>
        let v := eval vm_compute in (forward_code c) in
        change (forward_code c) with v
    | |- context [backward_code ?c] =>
        let v := eval vm_compute in (backward_code c) in
        change (backward_code c) with v
    | |- context [gray ?e] =>
        let v := eval vm_compute in (gray e) in
        change (gray e) with v
    end.

(** The table of [updateEncoder] read on two successive samples. *)
Lemma code_classes (p q : Sample) :
  valid_code (transition_code (encode p) q) = one_signal_changed p q
  /\ forward_code (transition_code (encode p) q)
     = backward_code (transition_code (encode q) p)
  /\ forward_code (transition_code (encode p) p) = false
  /\ backward_code (transition_code (encode p) p) = false.
Proof.
  destruct p as [[] []], q as [[] []]; vm_compute; repeat split.
Qed.

Lemma wrap32_congruent (z : Z) : exists k, wrap32 z = z + 2 ^ 32 * k.
Proof.
  unfold wrap32. exists (- ((z + 2 ^ 31) / 2 ^ 32)).
  pose proof (Z.div_mod (z + 2 ^ 31) (2 ^ 32) ltac:(lia)). lia.
Qed.

Lemma codes_app (l1 l2 : list Sample) :
  forall last,
    codes last (l1 ++ l2)
    = (codes last l1 ++ codes (final_pair last l1) l2)%list.
Proof.
  induction l1 as [| a l1 IH]; intros last; [reflexivity |].
  cbn [app codes]. rewrite IH. reflexivity.
Qed.

Lemma final_pair_last (l : list Sample) (x : Sample) (last : Z) :
  final_pair last (l ++ [x]) = encode x.
Proof. unfold final_pair. rewrite fold_left_app. reflexivity. Qed.

Lemma isr_run_lastEncoded (samples : list Sample) :
  forall s, lastEncoded (isr_run s samples) = final_pair (lastEncoded s) samples.
Proof.
  induction samples as [| ab rest IH]; intros s; [reflexivity |].
  unfold isr_run, final_pair in *. cbn [fold_left].
  rewrite IH, updateEncoder_lastEncoded. reflexivity.
Qed.

Lemma forward_steps_app (a b : list Z) :
  forward_steps (a ++ b) = forward_steps a + forward_steps b.
Proof. unfold forward_steps. rewrite filter_app, length_app. lia. Qed.

Lemma backward_steps_app (a b : list Z) :
  backward_steps (a ++ b) = backward_steps a + backward_steps b.
Proof. unfold backward_steps. rewrite filter_app, length_app. lia. Qed.

Lemma steps_single (c : Z) :
  forward_steps [c] = Z.b2z (forward_code c)
  /\ backward_steps [c] = Z.b2z (backward_code c).
Proof.
  unfold forward_steps, backward_steps. cbn [filter].
  destruct (forward_code c), (backward_code c); repeat split.
Qed.

(** Out along a path and back along it: as many forward as backward codes. *)
Lemma there_and_back_balanced (l : list Sample) :
  forall p0 : Sample,
    forward_steps (codes (encode p0) (l ++ tl (rev l) ++ [p0]))
    = backward_steps (codes (encode p0) (l ++ tl (rev l) ++ [p0])).
Proof.
  induction l as [| a l IH]; intros p0.
  - cbn [app rev tl codes].
    destruct (steps_single (transition_code (encode p0) p0)) as [-> ->].
    destruct (code_classes p0 p0) as (_ & _ & -> & ->). reflexivity.
  - destruct l as [| b l].
    { cbn [app rev tl codes].
      change [?x; ?y] with ([x] ++ [y])%list.
      rewrite !forward_steps_app, !backward_steps_app.
      destruct (steps_single (transition_code (encode p0) a)) as [-> ->].
      destruct (steps_single (transition_code (encode a) p0)) as [-> ->].
      destruct (code_classes p0 a) as (_ & -> & _).
      destruct (code_classes a p0) as (_ & -> & _). lia. }
    assert (E : (((a :: b :: l) ++ tl (rev (a :: b :: l)) ++ [p0])
                 = a :: ((b :: l) ++ tl (rev (b :: l)) ++ [a]) ++ [p0])%list).
    { assert (N : rev (b :: l) <> []).
      { cbn [rev]. intros Q. apply app_eq_nil in Q. destruct Q; discriminate. }
      change (rev (a :: b :: l)) with (rev (b :: l) ++ [a])%list.
      destruct (rev (b :: l)) as [| x r]; [congruence |].
      cbn [app tl]. rewrite <- !app_assoc. reflexivity. }
    rewrite E. cbn [codes]. rewrite codes_app.
    replace (final_pair (encode a) ((b :: l) ++ tl (rev (b :: l)) ++ [a]))
      with (encode a)
      by (rewrite app_assoc; symmetry; apply final_pair_last).
    cbn [codes].
    change (?x :: (?l1 ++ [?y])%list) with ([x] ++ (l1 ++ [y]))%list.
    rewrite !forward_steps_app, !backward_steps_app, IH.
    destruct (steps_single (transition_code (encode p0) a)) as [-> ->].
    destruct (steps_single (transition_code (encode a) p0)) as [-> ->].
    destruct (code_classes p0 a) as (_ & -> & _).
    destruct (code_classes a p0) as (_ & -> & _). lia.
Qed.

(** X1. The knob turned along any sequence of positions and back along the same
    positions, ending where it started, leaves the counter where it was,
    whatever bounces lie on the way. *)
Theorem isr_run_there_and_back (s : State) (p0 : Sample) (l : list Sample) :
  lastEncoded s = encode p0 ->
  INT_MIN <= encoderPos s <= INT_MAX ->
  encoderPos (isr_run s (l ++ tl (rev l) ++ [p0])) = encoderPos s
  /\ lastEncoded (isr_run s (l ++ tl (rev l) ++ [p0])) = encode p0.
Proof.
  intros L R. split.
  - rewrite (isr_run_encoderPos _ s R), L, there_and_back_balanced.
    rewrite wrap32_small; lia.
  - rewrite isr_run_lastEncoded, app_assoc. apply final_pair_last.
Qed.

Lemma isr_run_there_and_back_witness :
  encoderPos
    (isr_run initial
       ([(true, false); (true, true); (false, true)]
        ++ tl (rev [(true, false); (true, true); (false, true)])
        ++ [(false, false)])) = 0.
Proof.
  apply (isr_run_there_and_back initial (false, false)
           [(true, false); (true, true); (false, true)]).
  - reflexivity.
  - vm_compute. split; discriminate.
Defined.

(** X2. The counter moves, by exactly one, on the interrupts where one of the
    two signals differs from the previous sample; where neither or both
    differ it stays. *)
Theorem updateEncoder_moves_on_single_signal_change
  (s : State) (p q : Sample) :
  lastEncoded s = encode p ->
  INT_MIN < encoderPos s < INT_MAX ->
  Z.abs (encoderPos (updateEncoder s q) - encoderPos s)
  = Z.b2z (one_signal_changed p q).
Proof.
  intros L R. rewrite updateEncoder_encoderPos, L. cbv zeta.
  destruct (code_classes p q) as (V & _). unfold valid_code in V.
  rewrite <- V.
  destruct (forward_code (transition_code (encode p) q)) eqn:F.
  - rewrite wrap32_small by lia. cbn. lia.
  - destruct (backward_code (transition_code (encode p) q)).
    + rewrite wrap32_small by lia. cbn. lia.
    + cbn. lia.
Qed.

Lemma updateEncoder_moves_witness :
  Z.abs (encoderPos (updateEncoder initial (true, false)) - encoderPos initial)
  = Z.b2z (one_signal_changed (false, false) (true, false)).
Proof.
  apply updateEncoder_moves_on_single_signal_change.
  - reflexivity.
  - vm_compute. split; reflexivity.
Defined.

Lemma updateEncoder_gray_step (s : State) (p q : Sample) :
  lastEncoded s = encode p ->
  changed (fst p) (fst q) && changed (snd p) (snd q) = false ->
  exists k,
    encoderPos (updateEncoder s q) - encoderPos s
    - (gray (encode q) - gray (encode p)) = 4 * k.
Proof.
  intros L N. rewrite updateEncoder_encoderPos, L. cbv zeta.
  destruct (wrap32_congruent (encoderPos s + 1)) as [k1 ->].
  destruct (wrap32_congruent (encoderPos s - 1)) as [k2 ->].
  destruct p as [[] []], q as [[] []]; try discriminate N; eval_codes;
    cbv iota.
  all: first [ exists 0; lia | exists (2 ^ 30 * k1); lia
             | exists (2 ^ 30 * k2); lia
             | exists (2 ^ 30 * k1 + 1); lia
             | exists (2 ^ 30 * k2 - 1); lia ].
Qed.

(** X3. As long as no sample differs from the one before in both signals (no
    transition is missed), the counter follows the position of the knob in
    its cycle of four: the change of the counter and the change of position
    agree modulo 4. *)
Theorem isr_run_tracks_position (samples : list Sample) :
  forall (s : State) (p : Sample),
    lastEncoded s = encode p ->
    no_skip p samples = true ->
    (encoderPos (isr_run s samples) - encoderPos s
     - (gray (lastEncoded (isr_run s samples)) - gray (encode p))) mod 4 = 0.
Proof.
  induction samples as [| q rest IH]; intros s p L N.
  - unfold isr_run. cbn [fold_left]. rewrite L.
    replace (_ - _ - _) with 0 by lia. reflexivity.
  - cbn [no_skip] in N. apply andb_prop in N. destruct N as [N1 N2].
    apply negb_true_iff in N1.
    destruct (updateEncoder_gray_step s p q L N1) as [k Hk].
    specialize (IH (updateEncoder s q) q (updateEncoder_lastEncoded s q) N2).
    unfold isr_run in *. cbn [fold_left].
    apply Z.mod_divide in IH; [| lia]. destruct IH as [j Hj].
    apply Z.mod_divide; [lia |]. exists (j + k). lia.
Qed.

Lemma isr_run_tracks_position_witness :
  (encoderPos (isr_run initial [(true, false); (true, true); (true, true)])
   - encoderPos initial
   - (gray (lastEncoded
              (isr_run initial [(true, false); (true, true); (true, true)]))
      - gray (encode (false, false)))) mod 4 = 0.
Proof.
  apply isr_run_tracks_position; reflexivity.
Defined.

(** ** The button across polls and across the rollover of the clock *)

(** X4. The debounce interval is measured correctly across the rollover of
    [millis()]: with the last accepted press at any 32-bit time and the poll
    [d] ms later, wrapped or not, the press is accepted exactly when the
    level is low and [d] exceeds 200. *)
Theorem isButtonPressed_across_rollover (s : State) (low : bool) (d : Z) :
  0 <= d < 2 ^ 32 ->
  fst (isButtonPressed s low (wrap_u32 (lastButtonPressTime s + d)))
  = low && (200 <? d).
Proof.
  intros D. unfold isButtonPressed, wrap_u32.
  rewrite Zminus_mod_idemp_l.
  replace (lastButtonPressTime s + d - lastButtonPressTime s) with d by lia.
  rewrite Z.mod_small by exact D.
  destruct low; [| reflexivity]. destruct (200 <? d); reflexivity.
Qed.

(** A press 250 ms after one accepted 100 ms before the rollover. *)
Lemma isButtonPressed_across_rollover_witness :
  fst (isButtonPressed (set_lastButtonPressTime initial (2 ^ 32 - 100)) true
         150) = true.
Proof.
  change 150 with
    (wrap_u32
       (lastButtonPressTime (set_lastButtonPressTime initial (2 ^ 32 - 100))
        + 250)).
  rewrite isButtonPressed_across_rollover; [reflexivity |].
  split; [discriminate | reflexivity].
Defined.

(** X5. Over any sequence of polls, each accepted press comes more than 200 ms
    (on the 32-bit clock) after the accepted press before it. *)
Theorem accepted_times_spaced (polls : list (bool * Z)) :
  forall s : State,
    spaced (lastButtonPressTime s) (accepted_times s polls).
Proof.
  induction polls as [| [low now] rest IH]; intros s; [exact I |].
  cbn [accepted_times]. unfold isButtonPressed.
  destruct low; [| apply IH].
  destruct (200 <? wrap_u32 (now - lastButtonPressTime s)) eqn:E;
    cbn [fst snd]; [| apply IH].
  apply Z.ltb_lt in E. split; [exact E |]. apply (IH (set_lastButtonPressTime s now)).
Qed.

(** ** Rotation inside the safe range *)

Lemma wrap_step_eq_mod (current pos n : Z) :
  0 <= current < n ->
  - n <= pos <= INT_MAX - 2 * n ->
  wrap_step current pos n = (current + pos) mod n.
Proof.
  intros C P. unfold wrap_step.
  rewrite (wrap32_small (current + pos))
    by (unfold INT_MIN, INT_MAX in *; lia).
  rewrite wrap32_small by (unfold INT_MIN, INT_MAX in *; lia).
  rewrite Z.rem_mod_nonneg by lia.
  replace (current + pos + n) with (current + pos + 1 * n) by lia.
  apply Z_mod_plus_full.
Qed.

(** X6. For a drained delta no lower than minus the length of the list, the
    rotation sets the index of the current phase to [(index + delta) mod
    length], the mathematical modulus: it wraps at both ends of the list. *)
Theorem rotate_current_index (md : MenuData) (s : State) (pos : Z) :
  selecting (currentState s) = true ->
  0 <= current_index s < current_length md s ->
  - current_length md s <= pos <= INT_MAX - 2 * current_length md s ->
  current_index (rotate md s pos)
  = (current_index s + pos) mod current_length md s
  /\ currentState (rotate md s pos) = currentState s.
Proof.
  intros S C P. split; [| apply rotate_currentState].
  unfold current_index, current_length in *. rewrite rotate_currentState.
  unfold rotate. destruct (pos =? 0) eqn:Z0.
  - apply Z.eqb_eq in Z0. subst pos. rewrite Z.add_0_r.
    destruct (currentState s); try discriminate S;
      symmetry; apply Z.mod_small; exact C.
  - destruct (currentState s) eqn:E; try discriminate S;
      cbn [selectedNameIndex selectedClassIndex selectedMoodIndex
           set_selectedNameIndex set_selectedClassIndex set_selectedMoodIndex];
      apply wrap_step_eq_mod; assumption.
Qed.

(** One step back from the first mood of the sketch selects the last. *)
Lemma rotate_current_index_witness :
  current_index
    (rotate sketch (set_currentState initial STATE_MOOD_SELECTION) (-1))
  = (current_index (set_currentState initial STATE_MOOD_SELECTION) + -1)
      mod current_length sketch
            (set_currentState initial STATE_MOOD_SELECTION).
Proof.
  apply rotate_current_index.
  - reflexivity.
  - vm_compute. split; [discriminate | reflexivity].
  - vm_compute. split; discriminate.
Defined.

(** X7. A rotation followed by the opposite rotation restores the whole state,
    for deltas of at most the length of the list in either direction. *)
Theorem rotate_and_back (md : MenuData) (s : State) (pos : Z) :
  selecting (currentState s) = true ->
  0 <= current_index s < current_length md s ->
  - current_length md s <= pos <= current_length md s ->
  3 * current_length md s <= INT_MAX ->
  rotate md (rotate md s pos) (- pos) = s.
Proof.
  intros S C P B.
  assert (W : forall c n, 0 <= c < n -> - n <= pos <= n -> 3 * n <= INT_MAX ->
                          wrap_step (wrap_step c pos n) (- pos) n = c).
  { intros c n Hc Hp Hb.
    rewrite (wrap_step_eq_mod c pos n) by lia.
    rewrite wrap_step_eq_mod;
      [| apply Z.mod_pos_bound; lia | lia].
    rewrite Zplus_mod_idemp_l.
    replace (c + pos + - pos) with c by lia. apply Z.mod_small. exact Hc. }
  unfold current_index, current_length in *.
  unfold rotate at 2. destruct (pos =? 0) eqn:Z0.
  - apply Z.eqb_eq in Z0. subst pos. reflexivity.
  - assert (Z1 : (- pos =? 0) = false)
      by (apply Z.eqb_neq; apply Z.eqb_neq in Z0; lia).
    unfold rotate. rewrite Z1.
    destruct s as [cs ni ci mi ep le lb ps pn pc pm].
    cbn [currentState selectedNameIndex selectedClassIndex selectedMoodIndex]
      in *.
    destruct cs; try discriminate S;
      cbn [currentState set_selectedNameIndex set_selectedClassIndex
           set_selectedMoodIndex selectedNameIndex selectedClassIndex
           selectedMoodIndex encoderPos lastEncoded lastButtonPressTime
           prevState prevNameIndex prevClassIndex prevMoodIndex];
      rewrite W by assumption; reflexivity.
Qed.

Lemma rotate_and_back_witness :
  rotate sketch (rotate sketch initial 3) (- 3) = initial.
Proof.
  apply rotate_and_back.
  - reflexivity.
  - vm_compute. split; [discriminate | reflexivity].
  - vm_compute. split; discriminate.
  - vm_compute. discriminate.
Defined.

(** ** The first half of an iteration, up to the variables of the decoder *)

Lemma DeviceState_eqb_refl (d : DeviceState) : DeviceState_eqb d d = true.
Proof. destruct d; reflexivity. Qed.

(** After [render] the tracking variables describe what is on the LCD. *)
Lemma render_settles (md : MenuData) (s f : State) (tr : list Event) :
  render md s = Ok (f, tr) -> menu_changed f = false.
Proof.
  intros H. apply render_inv in H.
  destruct H as (_ & lcd & o & _ & _ & [(M & _ & ->) | (_ & -> & _)]);
    [exact M |].
  unfold menu_changed, snapshot. cbn.
  rewrite DeviceState_eqb_refl, !Z.eqb_refl, !andb_false_r. reflexivity.
Qed.

Lemma rotate_fields (md : MenuData) (s : State) (pos : Z) :
  prevState (rotate md s pos) = prevState s
  /\ (currentState s <> STATE_NAME_SELECTION ->
      selectedNameIndex (rotate md s pos) = selectedNameIndex s)
  /\ (currentState s <> STATE_CLASS_SELECTION ->
      selectedClassIndex (rotate md s pos) = selectedClassIndex s)
  /\ (currentState s <> STATE_MOOD_SELECTION ->
      selectedMoodIndex (rotate md s pos) = selectedMoodIndex s).
Proof.
  unfold rotate. destruct (pos =? 0); [repeat split |].
  destruct (currentState s); repeat split; congruence.
Qed.

Lemma press_fields (s : State) :
  prevState (press s) = prevState s
  /\ selectedNameIndex (press s) = selectedNameIndex s
  /\ selectedClassIndex (press s) = selectedClassIndex s
  /\ selectedMoodIndex (press s) = selectedMoodIndex s.
Proof. unfold press. destruct (currentState s); repeat split. Qed.

(** What the first half of an iteration does to the three indices and to
    the tracked phase. *)
Lemma front_state_fields (md : MenuData) (s : State) (i : TickInput) :
  prevState (front_state md s i) = prevState s
  /\ (currentState s <> STATE_NAME_SELECTION ->
      selectedNameIndex (front_state md s i) = selectedNameIndex s)
  /\ (currentState s <> STATE_CLASS_SELECTION ->
      selectedClassIndex (front_state md s i) = selectedClassIndex s)
  /\ (currentState s <> STATE_MOOD_SELECTION ->
      selectedMoodIndex (front_state md s i) = selectedMoodIndex s).
Proof.
  pose proof (forget_fields _ _ (front_state_shape md s i))
    as (_ & Hn & Hc & Hm & _ & Hp & _).
  rewrite Hn, Hc, Hm, Hp.
  pose proof (rotate_fields md s (encoderPos (isr_run s (in_isr_pre i))))
    as (Rp & Rn & Rc & Rm).
  destruct (accepts (lastButtonPressTime s) i).
  - pose proof (press_fields
                  (set_lastButtonPressTime
                     (rotate md s (encoderPos (isr_run s (in_isr_pre i))))
                     (in_millis i))) as (Pp & Pn & Pc & Pm).
    rewrite Pp, Pn, Pc, Pm. cbn. repeat split; assumption.
  - repeat split; assumption.
Qed.

(** ** Array bounds *)

Lemma index_defined (a : list string) (i : Z) :
  0 <= i < Z.of_nat (List.length a) -> exists x, index a i = Ok x.
Proof.
  intros H. unfold index.
  destruct (i <? 0) eqn:N; [apply Z.ltb_lt in N; lia |].
  destruct (nth_error a (Z.to_nat i)) as [x |] eqn:E; [now exists x |].
  apply nth_error_None in E. lia.
Qed.

Lemma valid_selection_forget (md : MenuData) (a b : State) :
  forget_encoder a = forget_encoder b ->
  valid_selection md a -> valid_selection md b.
Proof.
  intros H. apply forget_fields in H.
  destruct H as (_ & Hn & Hc & Hm & _). unfold valid_selection.
  rewrite Hn, Hc, Hm. tauto.
Qed.

Lemma rotate_valid (md : MenuData) (s : State) (pos : Z) :
  valid_selection md s ->
  - current_length md s <= pos <= INT_MAX - 2 * current_length md s ->
  valid_selection md (rotate md s pos).
Proof.
  intros (Vn & Vc & Vm & Vl) P. unfold rotate, current_length in *.
  destruct (pos =? 0); [unfold valid_selection; tauto |].
  assert (W : forall c n, 0 <= c < n -> - n <= pos <= INT_MAX - 2 * n ->
                          0 <= wrap_step c pos n < n)
    by (intros c n Hc Hp; apply wrap_step_in_range;
        unfold INT_MIN, INT_MAX in *; lia).
  destruct (currentState s); unfold valid_selection;
    cbn [selectedNameIndex selectedClassIndex selectedMoodIndex
         set_selectedNameIndex set_selectedClassIndex set_selectedMoodIndex];
    try pose proof (W _ _ Vn P); try pose proof (W _ _ Vc P);
    try pose proof (W _ _ Vm P); tauto.
Qed.

Lemma render_defined (md : MenuData) (s : State) :
  valid_selection md s ->
  currentState s <> STATE_CONFIRMATION ->
  exists f tr, render md s = Ok (f, tr).
Proof.
  intros (Vn & Vc & Vm & _) N. unfold render.
  assert (D : exists e, displayMenu md s = Ok e).
  { unfold displayMenu. destruct (currentState s); try congruence.
    - destruct (index_defined _ _ Vn) as [x ->]. cbn. eauto.
    - destruct (index_defined _ _ Vc) as [x ->]. cbn. eauto.
    - destruct (index_defined _ _ Vm) as [x ->]. cbn. eauto.
    - eauto. }
  assert (O : exists o, updateOLED md s = Ok o)
    by (unfold updateOLED; destruct (currentState s); try congruence; eauto).
  destruct D as [e D], O as [o O].
  replace (updateOLED md (snapshot s)) with (updateOLED md s)
    by (destruct s; reflexivity).
  rewrite D, O. destruct (menu_changed s); cbn; eauto.
Qed.

Lemma dwell_defined (md : MenuData) (confirmStart : Z) (o : Event)
  (steps : list DwellStep) :
  forall s, updateOLED md s = Ok o ->
            dwell md s confirmStart steps <> Undefined.
Proof.
  induction steps as [| d rest IH]; intros s O; [discriminate |].
  cbn [dwell]. destruct (_ <? 3000); [| discriminate].
  rewrite updateOLED_isr_run, O. cbn [bind].
  specialize (IH (isr_run s (dw_isr d))).
  rewrite updateOLED_isr_run in IH. specialize (IH O).
  destruct (dwell md (isr_run s (dw_isr d)) confirmStart rest);
    cbn; congruence.
Qed.

Lemma submission_valid (md : MenuData) (s : State) (i : TickInput) :
  valid_selection md s ->
  submission md s i <> Undefined
  /\ forall s' tr, submission md s i = Ok (s', tr) -> valid_selection md s'.
Proof.
  intros V. pose proof V as (Vn & Vc & Vm & Vl).
  destruct (DeviceState_eqb (currentState s) STATE_SUBMISSION) eqn:E.
  - assert (P : currentState s = STATE_SUBMISSION)
      by (destruct (currentState s); try discriminate; reflexivity).
    split.
    + unfold submission, submit_begin, message. rewrite P.
      destruct (index_defined _ _ Vn) as [n ->].
      destruct (index_defined _ _ Vc) as [c ->].
      destruct (index_defined _ _ Vm) as [m ->].
      cbn [bind displayMenu currentState set_currentState fst snd].
      assert (Vm' : 0 <= selectedMoodIndex s
                    < Z.of_nat (List.length (moodMessages md)))
        by (unfold numMoods in Vm; lia).
      destruct (index_defined _ _ Vm') as [x X].
      pose proof (dwell_defined md (in_confirmStart i) (OledMessage x)
                    (in_dwell i)
                    (set_currentState (isr_run s (in_isr_submit i))
                       STATE_CONFIRMATION)) as D.
      destruct (dwell md _ (in_confirmStart i) (in_dwell i));
        cbn; try discriminate.
      intros _. apply D; [| reflexivity].
      unfold updateOLED. cbn [currentState set_currentState selectedMoodIndex].
      rewrite isr_run_frame. cbn [selectedMoodIndex set_encoder].
      rewrite X. reflexivity.
    + intros s' tr H.
      destruct (submission_inv _ _ _ _ _ P H) as (_ & sd & _ & _ & _ & -> & _).
      unfold valid_selection. cbn. repeat split; lia.
  - assert (P : currentState s <> STATE_SUBMISSION)
      by (intros Q; rewrite Q in E; discriminate).
    rewrite (submission_skip _ _ _ P). split; [discriminate |].
    intros s' tr H. injection H as <- _. exact V.
Qed.

(** X9. An iteration that starts in a selecting phase with the three indices
    inside their arrays, and drains a delta no lower than minus the length of
    the current list, reads no array out of bounds and ends with the three
    indices inside their arrays again. *)
Theorem loop_stays_in_bounds (md : MenuData) (s : State) (i : TickInput) :
  valid_selection md s ->
  selecting (currentState s) = true ->
  - current_length md s <= encoderPos (isr_run s (in_isr_pre i))
    <= INT_MAX - 2 * current_length md s ->
  loop md s i <> Undefined
  /\ forall s' tr, loop md s i = Ok (s', tr) -> valid_selection md s'.
Proof.
  intros V S P.
  set (pos := encoderPos (isr_run s (in_isr_pre i))) in *.
  assert (Vr : valid_selection md (rotate md s pos))
    by (apply rotate_valid; assumption).
  assert (Vf : valid_selection md (front_state md s i)).
  { eapply valid_selection_forget;
      [symmetry; apply front_state_shape |]. fold pos.
    destruct (accepts (lastButtonPressTime s) i); [| exact Vr].
    pose proof (press_fields (set_lastButtonPressTime (rotate md s pos)
                                (in_millis i))) as (_ & Pn & Pc & Pm).
    unfold valid_selection. rewrite Pn, Pc, Pm. exact Vr. }
  assert (Nf : currentState (front_state md s i) <> STATE_CONFIRMATION).
  { rewrite front_state_currentState.
    destruct (accepts _ i), (currentState s); cbn; try discriminate S;
      discriminate. }
  destruct (render_defined md _ Vf Nf) as (f & trf & R).
  pose proof (render_currentState _ _ _ _ R) as (_ & _ & Rn & Rc & Rm & _).
  assert (Vs : valid_selection md f)
    by (unfold valid_selection in *; rewrite Rn, Rc, Rm; exact Vf).
  destruct (submission_valid md f i Vs) as [U K].
  unfold loop, loop_front. rewrite R. cbn [bind fst snd]. split.
  - destruct (submission md f i); cbn; congruence.
  - intros s' tr H.
    destruct (submission md f i) as [[s2 trs] | |] eqn:Q; cbn in H;
      try discriminate.
    injection H as <- _. apply (K _ _ eq_refl).
Qed.

Lemma loop_stays_in_bounds_witness :
  loop sketch initial (idle_tick [(false, true); (true, true)]) <> Undefined.
Proof.
  apply (loop_stays_in_bounds sketch initial
           (idle_tick [(false, true); (true, true)])).
  - unfold valid_selection, numNames, numClasses, numMoods. cbn. lia.
  - reflexivity.
  - vm_compute. split; discriminate.
Defined.

(** ** When the LCD is redrawn *)

(** X10. After an iteration that did not submit, an iteration without an accepted
    press and with a drained delta of 0 draws nothing on the LCD: its whole
    output is the one redraw of the OLED. *)
Theorem loop_idle_draws_no_menu (md : MenuData) (s s1 : State)
  (i i2 : TickInput) (tr1 : list Event) :
  loop md s i = Ok (s1, tr1) ->
  currentState (front_state md s i) <> STATE_SUBMISSION ->
  accepts (lastButtonPressTime s1) i2 = false ->
  encoderPos (isr_run s1 (in_isr_pre i2)) = 0 ->
  exists s2 o,
    loop md s1 i2 = Ok (s2, [o]) /\ is_oled o = true /\ is_lcd o = false.
Proof.
  intros L N A Z0. apply loop_inv in L.
  destruct L as (f & trf & trs & R & Sb & _).
  pose proof (render_currentState _ _ _ _ R) as (Rc & _).
  rewrite <- Rc in N. rewrite (submission_skip _ _ _ N) in Sb.
  injection Sb as <- _.
  pose proof (render_settles _ _ _ _ R) as M.
  assert (O : exists o, updateOLED md f = Ok o).
  { destruct (render_inv _ _ _ _ R) as (Hf & _ & o & _ & O & _). exists o.
    destruct Hf as [-> | ->]; [exact O |].
    rewrite <- O. destruct (front_state md s i); reflexivity. }
  destruct O as [o O].
  assert (F : forget_encoder (front_state md f i2) = forget_encoder f).
  { rewrite front_state_shape, A, Z0. reflexivity. }
  exists (front_state md f i2), o.
  unfold loop, loop_front, render.
  rewrite menu_changed_forget, F, <- menu_changed_forget, M.
  rewrite updateOLED_forget, F, <- updateOLED_forget, O. cbn [bind fst snd].
  assert (P : currentState (front_state md f i2) <> STATE_SUBMISSION).
  { destruct (forget_fields _ _ F) as (-> & _). exact N. }
  rewrite (submission_skip _ _ _ P). cbn [bind fst snd app].
  split; [reflexivity |].
  destruct (updateOLED_is_oled _ _ _ O) as [Ho _].
  split; [exact Ho |]. destruct o; try discriminate Ho; reflexivity.
Qed.

Lemma loop_idle_draws_no_menu_witness :
  exists s2 o,
    loop sketch (state_of (loop sketch initial (idle_tick []))) (idle_tick [])
    = Ok (s2, [o]) /\ is_oled o = true /\ is_lcd o = false.
Proof.
  apply (loop_idle_draws_no_menu sketch initial
           (state_of (loop sketch initial (idle_tick [])))
           (idle_tick []) (idle_tick [])
           (trace_of (loop sketch initial (idle_tick []))));
    vm_compute; try reflexivity; discriminate.
Defined.

(** X11. The iteration after a submission always redraws the LCD first: the
    reset leaves no tracked phase, so the menu replaces the confirmation
    text whatever the input. *)
Theorem loop_after_submission_redraws_menu (md : MenuData) (s s1 s2 : State)
  (i i2 : TickInput) (tr1 tr2 : list Event) :
  loop md s i = Ok (s1, tr1) ->
  currentState (front_state md s i) = STATE_SUBMISSION ->
  loop md s1 i2 = Ok (s2, tr2) ->
  exists e rest,
    tr2 = e :: rest
    /\ displayMenu md (front_state md s1 i2) = Ok e
    /\ is_lcd e = true.
Proof.
  intros L P L2.
  destruct (loop_submitting_trace _ _ _ _ _ L P)
    as (_ & _ & sd & _ & _ & _ & _ & _ & ->).
  apply loop_inv in L2. destruct L2 as (f & trf & trs & R & _ & ->).
  destruct (render_inv _ _ _ _ R)
    as (_ & lcd & o & -> & _ & [(M & _) | (_ & _ & e & D & ->)]).
  - exfalso. unfold menu_changed in M.
    destruct (front_state_fields md (reset sd) i2) as (Hp & _).
    rewrite Hp in M. cbn in M. discriminate.
  - exists e, (o :: trs). repeat split; [exact D |].
    apply (displayMenu_is_lcd _ _ _ D).
Qed.

Lemma loop_after_submission_redraws_menu_witness :
  exists e rest,
    trace_of
      (loop scenario
         (state_of
            (loop scenario (state_of (run scenario initial two_presses))
               third_press))
         (idle_tick []))
    = e :: rest
    /\ displayMenu scenario
         (front_state scenario
            (state_of
               (loop scenario (state_of (run scenario initial two_presses))
                  third_press))
            (idle_tick [])) = Ok e
    /\ is_lcd e = true.
Proof.
  apply (loop_after_submission_redraws_menu scenario
           (state_of (run scenario initial two_presses))
           (state_of
              (loop scenario (state_of (run scenario initial two_presses))
                 third_press))
           (state_of
              (loop scenario
                 (state_of
                    (loop scenario
                       (state_of (run scenario initial two_presses))
                       third_press))
                 (idle_tick [])))
           third_press (idle_tick [])
           (trace_of
              (loop scenario (state_of (run scenario initial two_presses))
                 third_press)));
    vm_compute; reflexivity.
Defined.

(** X12. An iteration that does not submit changes no index but that of the phase
    it started in. *)
Theorem loop_changes_only_current_index (md : MenuData) (s s' : State)
  (i : TickInput) (tr : list Event) :
  loop md s i = Ok (s', tr) ->
  currentState (front_state md s i) <> STATE_SUBMISSION ->
  (currentState s <> STATE_NAME_SELECTION ->
   selectedNameIndex s' = selectedNameIndex s)
  /\ (currentState s <> STATE_CLASS_SELECTION ->
      selectedClassIndex s' = selectedClassIndex s)
  /\ (currentState s <> STATE_MOOD_SELECTION ->
      selectedMoodIndex s' = selectedMoodIndex s).
Proof.
  intros L N. apply loop_inv in L.
  destruct L as (f & trf & trs & R & Sb & _).
  pose proof (render_currentState _ _ _ _ R) as (Rc & _ & Rn & Rcl & Rm & _).
  rewrite <- Rc in N. rewrite (submission_skip _ _ _ N) in Sb.
  injection Sb as <- _. rewrite Rn, Rcl, Rm.
  destruct (front_state_fields md s i) as (_ & Fn & Fc & Fm).
  repeat split; assumption.
Qed.

Lemma loop_changes_only_current_index_witness :
  selectedMoodIndex
    (state_of (loop sketch initial (idle_tick [(true, false)])))
  = selectedMoodIndex initial.
Proof.
  refine (proj2 (proj2 (loop_changes_only_current_index sketch initial
                          (state_of (loop sketch initial
                                       (idle_tick [(true, false)])))
                          (idle_tick [(true, false)])
                          (trace_of (loop sketch initial
                                       (idle_tick [(true, false)])))
                          _ _)) _);
    vm_compute; try reflexivity; discriminate.
Defined.

(** ** Start-up *)

(** X13. [setup] returns exactly when the OLED started and some poll of the
    WiFi status read connected (the list of names not being empty): there is
    no time-out, and while no poll reads connected it does not return. When
    it returns, the globals have their initial values (the decoder apart,
    whose interrupts are already attached) and the screens drawn are, in
    order: the blank OLED, the seven screens of the start-up animation on the
    LCD, the two WiFi status screens on the OLED, the menu of the first name
    on the LCD and the idle animation on the OLED. *)
Theorem setup_outcome (md : MenuData) (oled_ok : bool)
  (samples : list Sample) (statuses : list bool) :
  (forall s0 tr,
      setup md initial oled_ok samples statuses = Ok (s0, tr) ->
      oled_ok = true /\ In true statuses
      /\ forget_encoder s0 = initial
      /\ exists l,
          index (names md) 0 = Ok l
          /\ tr = [OledClear; LcdLine "Welcome!"; LcdLine "Loading.";
                   LcdLine "Loading.."; LcdLine "Loading...";
                   LcdMenu "Student Emotion" "Recorder"; LcdLine "By JET";
                   LcdClear; OledWiFi false; OledWiFi true;
                   LcdMenu "Select Name:" l; RoboEyes])
  /\ (~ In true statuses ->
      setup md initial oled_ok samples statuses = Hang)
  /\ (forall l,
      oled_ok = true -> In true statuses -> index (names md) 0 = Ok l ->
      exists s0,
        setup md initial oled_ok samples statuses
        = Ok (s0,
              [OledClear; LcdLine "Welcome!"; LcdLine "Loading.";
               LcdLine "Loading.."; LcdLine "Loading...";
               LcdMenu "Student Emotion" "Recorder"; LcdLine "By JET";
               LcdClear; OledWiFi false; OledWiFi true;
               LcdMenu "Select Name:" l; RoboEyes])
        /\ forget_encoder s0 = initial).
Proof.
  split; [| split].
  - intros s0 tr H. apply setup_inv in H.
    destruct H as (O & W & F & l & I & ->).
    split; [exact O |]. split; [exact W |]. split; [exact F |].
    exists l. split; [exact I | reflexivity].
  - apply setup_waits.
  - intros l -> W I.
    destruct (setup_returns md samples statuses l W I) as (s0 & H & F).
    exists s0. split; [exact H | exact F].
Qed.

(** The sketch connecting at the third poll, the knob turned one step
    meanwhile. *)
Lemma setup_outcome_witness :
  exists s0,
    setup sketch initial true [(true, false)] [false; false; true]
    = Ok (s0,
          [OledClear; LcdLine "Welcome!"; LcdLine "Loading.";
           LcdLine "Loading.."; LcdLine "Loading...";
           LcdMenu "Student Emotion" "Recorder"; LcdLine "By JET";
           LcdClear; OledWiFi false; OledWiFi true;
           LcdMenu "Select Name:" "Tan Jetyu"; RoboEyes])
    /\ forget_encoder s0 = initial.
Proof.
  destruct (setup_outcome sketch true [(true, false)] [false; false; true])
    as (_ & _ & H).
  apply (H "Tan Jetyu").
  - reflexivity.
  - right. right. left. reflexivity.
  - reflexivity.
Defined.

(** ** [urlEncode] *)

Lemma string_app_nil_r (s : string) : (s ++ "")%string = s.
Proof. induction s as [| c s IH]; cbn; [| rewrite IH]; reflexivity. Qed.

Lemma string_length_app (a b : string) :
  String.length (a ++ b) = (String.length a + String.length b)%nat.
Proof. induction a as [| c a IH]; cbn; [| rewrite IH]; reflexivity. Qed.

Lemma urlEncode_from_app (str : string) :
  forall encoded,
    urlEncode_from encoded str = (encoded ++ urlEncode str)%string.
Proof.
  unfold urlEncode. induction str as [| c rest IH]; intros encoded.
  - cbn. symmetry. apply string_app_nil_r.
  - cbn [urlEncode_from]. rewrite IH, (IH ("" ++ encode_char c)%string).
    cbn [append]. apply string_app_assoc.
Qed.

Lemma urlEncode_cons (c : ascii) (rest : string) :
  urlEncode (String c rest) = (encode_char c ++ urlEncode rest)%string.
Proof.
  unfold urlEncode at 1. cbn [urlEncode_from append].
  apply urlEncode_from_app.
Qed.

Lemma urlEncode_app (a b : string) :
  urlEncode (a ++ b) = (urlEncode a ++ urlEncode b)%string.
Proof.
  induction a as [| c a IH]; [reflexivity |].
  cbn [append]. rewrite !urlEncode_cons, IH. symmetry.
  apply string_app_assoc.
Qed.

Lemma all_chars_app (f : ascii -> bool) (a b : string) :
  all_chars f (a ++ b) = all_chars f a && all_chars f b.
Proof.
  induction a as [| c a IH]; [reflexivity |].
  cbn. rewrite IH. apply andb_assoc.
Qed.

Lemma encode_char_alphabet (c : ascii) :
  (nat_of_ascii c <? 128)%nat = true ->
  all_chars (fun x => isalnum x || Ascii.eqb x "%") (encode_char c) = true.
Proof.
  destruct c as [[] [] [] [] [] [] [] []]; intros H;
    try discriminate H; vm_compute; reflexivity.
Qed.

Lemma encode_char_length (c : ascii) :
  String.length (encode_char c) = if isalnum c then 1%nat else 3%nat.
Proof.
  unfold encode_char. destruct (isalnum c); [reflexivity |].
  destruct (Ascii.eqb c " "); reflexivity.
Qed.

Lemma decode_encode_char (c : ascii) (rest : string) :
  (nat_of_ascii c <? 128)%nat = true ->
  urlDecode (encode_char c ++ rest) = String c (urlDecode rest).
Proof.
  destruct c as [[] [] [] [] [] [] [] []]; intros H;
    try discriminate H; reflexivity.
Qed.

Lemma urlEncode_chars (s : string) :
  seven_bit s = true ->
  all_chars (fun x => isalnum x || Ascii.eqb x "%") (urlEncode s) = true.
Proof.
  induction s as [| c s IH]; intros H; [reflexivity |].
  cbn [seven_bit] in H. apply andb_prop in H. destruct H as [Hc Hs].
  rewrite urlEncode_cons, all_chars_app, (encode_char_alphabet c Hc).
  apply IH. exact Hs.
Qed.

(** X14. The encoded text of a 7-bit message consists of letters, digits and
    percent signs only, whatever is appended to what: encoding a
    concatenation is concatenating the encodings. *)
Theorem urlEncode_alphabet (a b : string) :
  seven_bit a = true ->
  seven_bit b = true ->
  urlEncode (a ++ b) = (urlEncode a ++ urlEncode b)%string
  /\ all_chars (fun x => isalnum x || Ascii.eqb x "%") (urlEncode (a ++ b))
     = true.
Proof.
  intros Ha Hb. split; [apply urlEncode_app |].
  rewrite urlEncode_app, all_chars_app, (urlEncode_chars a Ha),
    (urlEncode_chars b Hb). reflexivity.
Qed.

Lemma urlEncode_alphabet_witness :
  all_chars (fun x => isalnum x || Ascii.eqb x "%")
    (urlEncode ("Mood: Happy & " ++ "well/100%?")) = true.
Proof.
  apply (proj2 (urlEncode_alphabet "Mood: Happy & " "well/100%?"
                  eq_refl eq_refl)).
Defined.

(** X15. Percent-decoding the encoded text gives back the message: the encoding
    loses nothing of a 7-bit message. *)
Theorem urlDecode_urlEncode (s : string) :
  seven_bit s = true -> urlDecode (urlEncode s) = s.
Proof.
  induction s as [| c s IH]; intros H; [reflexivity |].
  cbn [seven_bit] in H. apply andb_prop in H. destruct H as [Hc Hs].
  rewrite urlEncode_cons, (decode_encode_char c _ Hc), (IH Hs). reflexivity.
Qed.

Lemma urlDecode_urlEncode_witness :
  urlDecode (urlEncode (four_lines "Nur Qalisha" "Class 4" "Sad" "31/12/2025"))
  = four_lines "Nur Qalisha" "Class 4" "Sad" "31/12/2025".
Proof. apply urlDecode_urlEncode. reflexivity. Defined.

(** X16. The encoded text is at least as long as the message and at most three
    times as long; it is the message itself exactly when the message is
    alphanumeric. *)
Theorem urlEncode_length_and_fixed_points (s : string) :
  (String.length s <= String.length (urlEncode s) <= 3 * String.length s)%nat
  /\ (urlEncode s = s <-> all_chars isalnum s = true).
Proof.
  assert (L : (String.length s <= String.length (urlEncode s)
               <= 3 * String.length s)%nat
              /\ (all_chars isalnum s = false ->
                  (String.length s < String.length (urlEncode s))%nat)).
  { induction s as [| c s [IH1 IH2]]; [cbn; split; [lia | discriminate] |].
    rewrite urlEncode_cons, string_length_app, encode_char_length.
    cbn [String.length all_chars].
    destruct (isalnum c); cbn [andb]; split; try lia.
    intros H. specialize (IH2 H). lia. }
  split; [exact (proj1 L) |]. split.
  - intros E. destruct (all_chars isalnum s) eqn:A; [reflexivity |].
    pose proof (proj2 L eq_refl) as Q. rewrite E in Q. lia.
  - clear L. induction s as [| c s IH]; [reflexivity |].
    cbn [all_chars]. intros H. apply andb_prop in H. destruct H as [Hc Hs].
    rewrite urlEncode_cons, (IH Hs). unfold encode_char. rewrite Hc.
    reflexivity.
Qed.

Lemma count_char_app (c : ascii) (a b : string) :
  count_char c (a ++ b) = (count_char c a + count_char c b)%nat.
Proof.
  induction a as [| x a IH]; [reflexivity |].
  cbn. destruct (Ascii.eqb x c); rewrite IH; reflexivity.
Qed.

Lemma count_char_outside (c : ascii) (s : string) :
  isalnum c || Ascii.eqb c "%" = false ->
  all_chars (fun x => isalnum x || Ascii.eqb x "%") s = true ->
  count_char c s = O.
Proof.
  intros C. induction s as [| x s IH]; [reflexivity |].
  cbn. intros H. apply andb_prop in H. destruct H as [Hx Hs].
  destruct (Ascii.eqb x c) eqn:E; [| apply IH; exact Hs].
  apply Ascii.eqb_eq in E. subst x. rewrite C in Hx. discriminate.
Qed.

(** X18. The message cannot change the frame of the request: whatever the 7-bit
    message, the request holds exactly four spaces, four carriage returns
    and four line feeds, and its URL one question mark and one ampersand. *)
Theorem telegram_request_framing (message : string) :
  seven_bit message = true ->
  count_char " " (telegram_request message) = 4%nat
  /\ count_char "013" (telegram_request message) = 4%nat
  /\ count_char "010" (telegram_request message) = 4%nat
  /\ count_char "?" (telegram_url message) = 1%nat
  /\ count_char "&" (telegram_url message) = 1%nat.
Proof.
  intros H. pose proof (urlEncode_chars message H) as A.
  unfold telegram_request, telegram_url.
  repeat split; rewrite !count_char_app.
  - rewrite (count_char_outside " " _ eq_refl A). reflexivity.
  - rewrite (count_char_outside "013" _ eq_refl A). reflexivity.
  - rewrite (count_char_outside "010" _ eq_refl A). reflexivity.
  - rewrite (count_char_outside "?" _ eq_refl A). reflexivity.
  - rewrite (count_char_outside "&" _ eq_refl A). reflexivity.
Qed.

Lemma telegram_request_framing_witness :
  count_char "010"
    (telegram_request (four_lines "Evelyn" "Class 5" "Angry" "01/02/2026"))
  = 4%nat.
Proof.
  apply (telegram_request_framing
           (four_lines "Evelyn" "Class 5" "Angry" "01/02/2026")).
  reflexivity.
Defined.

(** X17. The encoded message of a submission: the four labels and the date,
    each encoded on its own, between the fixed encoded separators. *)
Theorem urlEncode_four_lines (n c m d : string) :
  urlEncode (four_lines n c m d)
  = ("Name%3A%20" ++ urlEncode n ++ "%0AClass%3A%20" ++ urlEncode c
     ++ "%0AMood%3A%20" ++ urlEncode m ++ "%0ADate%3A%20" ++ urlEncode d)%string.
Proof.
  unfold four_lines. cbn [String.concat].
  repeat rewrite urlEncode_app.
  change (urlEncode "Name: ") with "Name%3A%20".
  change (urlEncode newline) with "%0A".
  change (urlEncode "Class: ") with "Class%3A%20".
  change (urlEncode "Mood: ") with "Mood%3A%20".
  change (urlEncode "Date: ") with "Date%3A%20".
  repeat rewrite string_app_assoc. reflexivity.
Qed.

(** ** [getFormattedDate] *)

Lemma forall_below (P : Z -> bool) (n : nat) :
  forallb P (map Z.of_nat (seq 0 n)) = true ->
  forall z, 0 <= z < Z.of_nat n -> P z = true.
Proof.
  intros H z Hz. rewrite forallb_forall in H. apply H.
  apply in_map_iff. exists (Z.to_nat z). split; [lia |].
  apply in_seq. lia.
Qed.

Lemma field_ok_2 (z : Z) : 0 <= z < 100 -> field_ok 2 z = true.
Proof.
  apply (forall_below (field_ok 2) (Z.to_nat 100)). vm_compute. reflexivity.
Qed.

Lemma field_ok_4 (z : Z) : 0 <= z < 10000 -> field_ok 4 z = true.
Proof.
  apply (forall_below (field_ok 4) (Z.to_nat 10000)). vm_compute. reflexivity.
Qed.

(** X19. For a day of 1 to 31, a month field of 0 to 11 and a year up to 9999,
    the date is ten characters, so it fits the buffer of eleven: two digits,
    a slash, two digits, a slash and four digits, which write the day, the
    month counted from 1 and the year counted from 0. *)
Theorem getFormattedDate_layout (t : tm) :
  1 <= tm_mday t <= 31 ->
  0 <= tm_mon t <= 11 ->
  - 1900 <= tm_year t <= 8099 ->
  exists dd mm yyyy,
    getFormattedDate t = Ok (dd ++ "/" ++ mm ++ "/" ++ yyyy)%string
    /\ String.length dd = 2%nat /\ String.length mm = 2%nat
    /\ String.length yyyy = 4%nat
    /\ all_chars is_digit dd = true /\ all_chars is_digit mm = true
    /\ all_chars is_digit yyyy = true
    /\ number_of dd = tm_mday t
    /\ number_of mm = tm_mon t + 1
    /\ number_of yyyy = tm_year t + 1900.
Proof.
  intros D M Y. unfold getFormattedDate.
  rewrite (wrap32_small (tm_mon t + 1)) by (unfold INT_MIN, INT_MAX; lia).
  rewrite (wrap32_small (tm_year t + 1900)) by (unfold INT_MIN, INT_MAX; lia).
  pose proof (field_ok_2 (tm_mday t) ltac:(lia)) as F1.
  pose proof (field_ok_2 (tm_mon t + 1) ltac:(lia)) as F2.
  pose proof (field_ok_4 (tm_year t + 1900) ltac:(lia)) as F3.
  unfold field_ok in F1, F2, F3.
  apply andb_prop in F1, F2, F3.
  destruct F1 as [F1 V1], F2 as [F2 V2], F3 as [F3 V3].
  apply andb_prop in F1, F2, F3.
  destruct F1 as [L1 A1], F2 as [L2 A2], F3 as [L3 A3].
  apply Nat.eqb_eq in L1, L2, L3. apply Z.eqb_eq in V1, V2, V3.
  exists (fmt_0d 2 (tm_mday t)), (fmt_0d 2 (tm_mon t + 1)),
    (fmt_0d 4 (tm_year t + 1900)).
  cbv zeta. rewrite !string_length_app, L1, L2, L3. cbn [String.length Nat.add].
  repeat split; assumption.
Qed.

(** The last day of 2025, with [tm_mon = 11] and [tm_year = 125]. *)
Lemma getFormattedDate_layout_witness :
  exists dd mm yyyy,
    getFormattedDate {| tm_mday := 31; tm_mon := 11; tm_year := 125 |}
    = Ok (dd ++ "/" ++ mm ++ "/" ++ yyyy)%string
    /\ String.length dd = 2%nat /\ String.length mm = 2%nat
    /\ String.length yyyy = 4%nat
    /\ all_chars is_digit dd = true /\ all_chars is_digit mm = true
    /\ all_chars is_digit yyyy = true
    /\ number_of dd = 31
    /\ number_of mm = 11 + 1
    /\ number_of yyyy = 125 + 1900.
Proof.
  apply (getFormattedDate_layout
           {| tm_mday := 31; tm_mon := 11; tm_year := 125 |});
    cbn; lia.
Defined.

(** ** [displayEmotion] *)

(** X20. Of the five moods, Happy (0) and Neutral (1) are drawn alike and every
    other pair is drawn differently; an index outside 0 to 4 draws nothing. *)
Theorem displayEmotion_distinguishes (a b : Z) :
  (0 <= a <= 4 -> 0 <= b <= 4 ->
   (displayEmotion a = displayEmotion b <-> a = b \/ (a <= 1 /\ b <= 1)))
  /\ (a < 0 \/ 4 < a -> displayEmotion a = []).
Proof.
  split.
  - intros Ha Hb.
    assert (A : a = 0 \/ a = 1 \/ a = 2 \/ a = 3 \/ a = 4) by lia.
    assert (B : b = 0 \/ b = 1 \/ b = 2 \/ b = 3 \/ b = 4) by lia.
    destruct A as [-> | [-> | [-> | [-> | ->]]]];
      destruct B as [-> | [-> | [-> | [-> | ->]]]];
      (split;
       [ intros H; vm_compute in H;
         first [ discriminate H | lia ]
       | intros H; first [ reflexivity | exfalso; lia ] ]).
  - intros H. unfold displayEmotion.
    repeat match goal with
      | |- context [?x =? ?y] =>
          destruct (Z.eqb_spec x y); [exfalso; lia |]
      end.
    reflexivity.
Qed.

Lemma displayEmotion_distinguishes_witness :
  displayEmotion 0 = displayEmotion 1 /\ displayEmotion (-1) = [].
Proof.
  destruct (displayEmotion_distinguishes 0 1) as [H _].
  destruct (displayEmotion_distinguishes (-1) 0) as [_ K].
  split.
  - apply H; lia.
  - apply K. lia.
Defined.

(** ** Rotation below the safe range *)

(** X8. For a delta below minus (index + length), the index formula gives a
    value that is never positive: it is 0 when index + delta is a multiple
    of the length and negative, above minus the length, otherwise. *)
Theorem wrap_step_below_range (current pos n : Z) :
  0 < n ->
  INT_MIN <= current + pos ->
  current + pos + n < 0 ->
  - n < wrap_step current pos n <= 0
  /\ (wrap_step current pos n = 0 <-> (current + pos) mod n = 0).
Proof.
  intros Hn H1 H2. unfold wrap_step.
  rewrite (wrap32_small (current + pos))
    by (unfold INT_MIN, INT_MAX in *; lia).
  rewrite wrap32_small by (unfold INT_MIN, INT_MAX in *; lia).
  split; [apply Z.rem_bound_pos_neg; lia |].
  assert (E : (current + pos) mod n = (current + pos + n) mod n).
  { replace (current + pos + n) with (current + pos + 1 * n) by lia.
    symmetry. apply Z_mod_plus_full. }
  rewrite E, (Z.mod_divide _ n) by lia. apply Z.rem_divide. lia.
Qed.

Lemma wrap_step_below_range_witness :
  - 4 < wrap_step 0 (-7) 4 <= 0
  /\ (wrap_step 0 (-7) 4 = 0 <-> (0 + -7) mod 4 = 0).
Proof.
  refine (wrap_step_below_range 0 (-7) 4 _ _ _);
    vm_compute; try reflexivity; discriminate.
Defined.
